(** * getWorksByORCID.py: the work extractor and the batch orchestrator

    A shallow embedding of [get_orcid_works] and
    [fetch_orcid_works_from_excel] of getWorksByORCID.py, together with the
    Python operations the two functions apply to the values they handle.

    Conventions.
    - A Python object met by the program is a [value]: what [json] parsing
      yields, which is also what a spreadsheet cell can hold.
    - A [string] is a Python [str] whose code points are all below 256; an
      [ascii] is read as one code point.
    - An operation that can raise returns a [res]; an operation with
      effects returns the events it causes next to its [res]. *)

From Stdlib Require Import String Ascii List ZArith Bool Arith Lia.
From Stdlib Require Import DecimalString QArith.
Import ListNotations.
Local Close Scope Q_scope.
Local Open Scope nat_scope.
Local Open Scope list_scope.
Local Open Scope string_scope.

(* ================================================================= *)
(** ** Python values and exceptions *)

(** A [float] is carried as the text [repr] gives for it: the program only
    tests a float for truth, converts it with [str], compares it with a
    [str] and calls [.get] on it. A [dict] is the list of its items in
    insertion order; the first item of a key is the one the key maps to. *)
#[local] Set Warnings "-register-all".
Inductive value : Type :=
| VNone
| VBool (b : bool)
| VInt (n : Z)
| VFloat (shown : string)
| VStr (s : string)
| VList (xs : list value)
| VDict (items : list (string * value)).
#[local] Set Warnings "register-all".

Inductive exn : Type :=
| AttributeError
| IndexError
| KeyError
| TypeError
| NameError
| ValueError
| JSONDecodeError
| OverflowError
| OSError.

Inductive res (A : Type) : Type :=
| Ok (a : A)
| Raise (e : exn).
Arguments Ok {A} a.
Arguments Raise {A} e.

Definition res_bind {A B : Type} (m : res A) (k : A -> res B) : res B :=
  match m with
  | Ok a => k a
  | Raise e => Raise e
  end.

Declare Scope res_scope.
Delimit Scope res_scope with res.
Notation "x <- m ;; k" := (res_bind m (fun x => k))
  (at level 61, m at next level, right associativity) : res_scope.

(* ================================================================= *)
(** ** Python built-ins used by the program *)

Module Py.

(** The empty dict [{}], the string ["N/A"]. *)
Definition empty_dict : value := VDict [].
Definition NA : value := VStr "N/A".

Fixpoint lookup (k : string) (items : list (string * value)) : option value :=
  match items with
  | [] => None
  | (k', v) :: rest => if String.eqb k k' then Some v else lookup k rest
  end.

Definition has_key (k : string) (items : list (string * value)) : bool :=
  match lookup k items with Some _ => true | None => false end.

(** [bool(v)]. *)
Definition truthy (v : value) : bool :=
  match v with
  | VNone => false
  | VBool b => b
  | VInt n => negb (n =? 0)%Z
  | VFloat r => negb (String.eqb r "0.0" || String.eqb r "-0.0")
  | VStr s => negb (String.eqb s "")
  | VList xs => match xs with [] => false | _ => true end
  | VDict items => match items with [] => false | _ => true end
  end.

(** [a or b]. *)
Definition or_else (a b : value) : value := if truthy a then a else b.

(** [v.get(k, dflt)]: only a dict has the method. *)
Definition get (v : value) (k : string) (dflt : value) : res value :=
  match v with
  | VDict items =>
      Ok (match lookup k items with Some x => x | None => dflt end)
  | _ => Raise AttributeError
  end.

(** [v[0]]. *)
Definition item0 (v : value) : res value :=
  match v with
  | VList [] => Raise IndexError
  | VList (x :: _) => Ok x
  | VStr EmptyString => Raise IndexError
  | VStr (String c _) => Ok (VStr (String c EmptyString))
  | VDict _ => Raise KeyError
  | _ => Raise TypeError
  end.

(** [v[k]] for a [str] key [k]. *)
Definition item (v : value) (k : string) : res value :=
  match v with
  | VDict items =>
      match lookup k items with Some x => Ok x | None => Raise KeyError end
  | _ => Raise TypeError
  end.

(** [v == s] for a [str] literal [s]. *)
Definition eq_str (v : value) (s : string) : bool :=
  match v with
  | VStr t => String.eqb t s
  | _ => false
  end.

Fixpoint is_substring (k s : string) : bool :=
  String.prefix k s ||
  match s with
  | EmptyString => false
  | String _ rest => is_substring k rest
  end.

(** [k in v] for a [str] literal [k]. *)
Definition contains (k : string) (v : value) : res bool :=
  match v with
  | VDict items => Ok (has_key k items)
  | VList xs => Ok (existsb (fun x => eq_str x k) xs)
  | VStr s => Ok (is_substring k s)
  | _ => Raise TypeError
  end.

Fixpoint chars (s : string) : list value :=
  match s with
  | EmptyString => []
  | String c rest => VStr (String c EmptyString) :: chars rest
  end.

(** The items [for x in v] visits. *)
Definition iter (v : value) : res (list value) :=
  match v with
  | VList xs => Ok xs
  | VStr s => Ok (chars s)
  | VDict items => Ok (map (fun kv => VStr (fst kv)) items)
  | _ => Raise TypeError
  end.

(** *** [repr] and [str] *)

Definition quote1 : ascii := ascii_of_nat 39.
Definition quote2 : ascii := ascii_of_nat 34.
Definition backslash : ascii := ascii_of_nat 92.

Definition str1 (c : ascii) : string := String c EmptyString.

Fixpoint has_char (c : ascii) (s : string) : bool :=
  match s with
  | EmptyString => false
  | String d rest => Ascii.eqb c d || has_char c rest
  end.

Definition hex_digit (n : nat) : ascii :=
  nth n (list_ascii_of_string "0123456789abcdef") "0"%char.

(** Printable code points below 256: the ASCII graphic characters and the
    space, and the Latin-1 ones from 161 on except the soft hyphen. *)
Definition printable (c : ascii) : bool :=
  let n := nat_of_ascii c in
  (((32 <=? n) && (n <=? 126)) || ((161 <=? n) && negb (n =? 173)))%nat.

Definition escape (q c : ascii) : string :=
  let n := nat_of_ascii c in
  if Ascii.eqb c q || Ascii.eqb c backslash then String backslash (str1 c)
  else if (n =? 9)%nat then String backslash "t"
  else if (n =? 10)%nat then String backslash "n"
  else if (n =? 13)%nat then String backslash "r"
  else if printable c then str1 c
  else String backslash
         (String "x" (String (hex_digit (n / 16)) (str1 (hex_digit (n mod 16))))).

Fixpoint escape_all (q : ascii) (s : string) : string :=
  match s with
  | EmptyString => EmptyString
  | String c rest => escape q c ++ escape_all q rest
  end.

(** [repr(s)] of a [str]: single quotes, unless the text has a single
    quote and no double quote. *)
Definition repr_str (s : string) : string :=
  let q := if has_char quote1 s && negb (has_char quote2 s)
           then quote2 else quote1 in
  String q (escape_all q s ++ str1 q).

Definition str_of_int (n : Z) : string :=
  NilZero.string_of_int (Z.to_int n).

Fixpoint join (sep : string) (parts : list string) : string :=
  match parts with
  | [] => EmptyString
  | [p] => p
  | p :: rest => p ++ sep ++ join sep rest
  end.

Fixpoint repr (v : value) : string :=
  match v with
  | VNone => "None"
  | VBool true => "True"
  | VBool false => "False"
  | VInt n => str_of_int n
  | VFloat r => r
  | VStr s => repr_str s
  | VList xs => "[" ++ join ", " (map repr xs) ++ "]"
  | VDict items =>
      "{" ++ join ", "
               (map (fun kv => repr_str (fst kv) ++ ": " ++ repr (snd kv)) items)
          ++ "}"
  end.

(** [str(v)], which is also what an f-string field [{v}] gives. *)
Definition str (v : value) : string :=
  match v with
  | VStr s => s
  | _ => repr v
  end.

(** *** [str] methods *)

Fixpoint zeros (n : nat) : string :=
  match n with
  | O => EmptyString
  | S m => String "0" (zeros m)
  end.

Definition is_sign (c : ascii) : bool :=
  Ascii.eqb c "+"%char || Ascii.eqb c "-"%char.

(** [s.zfill(width)]: zeros on the left, after a leading sign. *)
Definition zfill (s : string) (width : nat) : string :=
  let n := String.length s in
  if (width <=? n)%nat then s
  else
    match s with
    | EmptyString => zeros (width - n)
    | String c rest =>
        if is_sign c then String c (zeros (width - n) ++ rest)
        else zeros (width - n) ++ s
    end.

(** White space below 256: tab to carriage return, the four separators
    28 to 31, the space, NEL and the no-break space. *)
Definition is_space (c : ascii) : bool :=
  let n := nat_of_ascii c in
  (((9 <=? n) && (n <=? 13)) || ((28 <=? n) && (n <=? 32))
   || (n =? 133) || (n =? 160))%nat.

Fixpoint lstrip (s : string) : string :=
  match s with
  | EmptyString => EmptyString
  | String c rest => if is_space c then lstrip rest else s
  end.

Fixpoint rstrip (s : string) : string :=
  match s with
  | EmptyString => EmptyString
  | String c rest =>
      match rstrip rest with
      | EmptyString => if is_space c then EmptyString else str1 c
      | kept => String c kept
      end
  end.

(** [s.strip()]. *)
Definition strip (s : string) : string := rstrip (lstrip s).

Definition lower_char (c : ascii) : ascii :=
  let n := nat_of_ascii c in
  if (((65 <=? n) && (n <=? 90))
      || ((192 <=? n) && (n <=? 222) && negb (n =? 215)))%nat
  then ascii_of_nat (n + 32) else c.

(** [s.lower()]. *)
Fixpoint lower (s : string) : string :=
  match s with
  | EmptyString => EmptyString
  | String c rest => String (lower_char c) (lower rest)
  end.

(** [s in words] for a list of [str]. *)
Definition among (s : string) (words : list string) : bool :=
  existsb (String.eqb s) words.

End Py.

(* ================================================================= *)
(** ** The work extractor: the loop of [get_orcid_works] (lines 37-81) *)

Local Open Scope res_scope.

(** Line 40: [group.get("work-summary", [{}])[0]]. *)
Definition work_summary_of (group : value) : res value :=
  summaries <- Py.get group "work-summary" (VList [Py.empty_dict]) ;;
  Py.item0 summaries.

(** Line 42: [.get("title", {}).get("title", {}).get("value", "N/A")]. *)
Definition title_of (work_summary : value) : res value :=
  outer <- Py.get work_summary "title" Py.empty_dict ;;
  inner <- Py.get outer "title" Py.empty_dict ;;
  Py.get inner "value" Py.NA.

(** [(pub_date.get(part) or {}).get("value") or dflt], lines 47-49. *)
Definition date_part (pub_date : value) (part : string) (dflt : value)
  : res value :=
  entry <- Py.get pub_date part VNone ;;
  v <- Py.get (Py.or_else entry Py.empty_dict) "value" VNone ;;
  Ok (Py.or_else v dflt).

(** Lines 44-55. *)
Definition publication_date_of (work_summary : value) : res value :=
  pub_date <- Py.get work_summary "publication-date" VNone ;;
  if Py.truthy pub_date then
    year <- date_part pub_date "year" (VStr "") ;;
    month <- date_part pub_date "month" (VStr "01") ;;
    day <- date_part pub_date "day" (VStr "01") ;;
    let month := Py.str month in
    let day := Py.str day in
    if Py.truthy year then
      Ok (VStr (Py.str year ++ "-" ++ Py.zfill month 2
                ++ "-" ++ Py.zfill day 2))
    else Ok VNone
  else Ok VNone.

(** Lines 57-65. *)
Definition journal_title_of (work_summary : value) : res value :=
  present <- Py.contains "journal-title" work_summary ;;
  chosen <-
    (if present then
       jt <- Py.item work_summary "journal-title" ;; Ok (Py.truthy jt)
     else Ok false) ;;
  if chosen then
    jt <- Py.item work_summary "journal-title" ;;
    Py.get jt "value" Py.NA
  else
    source_names <- Py.get work_summary "source" (VList []) ;;
    if Py.truthy source_names then
      source <- Py.item0 source_names ;;
      named <- Py.contains "source-name" source ;;
      if named then
        sn <- Py.item source "source-name" ;;
        Py.get sn "value" Py.NA
      else Ok Py.NA
    else Ok Py.NA.

(** The [for ext_id in external_ids] loop with its [break], lines 69-72. *)
Fixpoint doi_scan (external_ids : list value) : res value :=
  match external_ids with
  | [] => Ok Py.NA
  | ext_id :: rest =>
      t <- Py.get ext_id "external-id-type" VNone ;;
      if Py.eq_str t "doi" then Py.get ext_id "external-id-value" Py.NA
      else doi_scan rest
  end.

(** Lines 67-72. *)
Definition doi_of (work_summary : value) : res value :=
  ids <- Py.get work_summary "external-ids" Py.empty_dict ;;
  external_ids <- Py.get ids "external-id" (VList []) ;;
  entries <- Py.iter external_ids ;;
  doi_scan entries.

(** A work: the dict appended at lines 74-79, as its items. *)
Definition work : Type := list (string * value).

Definition mk_work (title publication_date journal doi : value) : work :=
  [("title", title); ("publication_date", publication_date);
   ("journal", journal); ("doi", doi)].

(** One turn of the loop, lines 39-79. *)
Definition work_of_group (group : value) : res work :=
  work_summary <- work_summary_of group ;;
  title <- title_of work_summary ;;
  publication_date <- publication_date_of work_summary ;;
  journal_title <- journal_title_of work_summary ;;
  doi <- doi_of work_summary ;;
  Ok (mk_work title publication_date journal_title doi).

Fixpoint works_loop (groups : list value) (works : list work)
  : res (list work) :=
  match groups with
  | [] => Ok works
  | group :: rest =>
      w <- work_of_group group ;;
      works_loop rest (works ++ [w])%list
  end.

(** Lines 37-81: from the parsed document to the list of works. *)
Definition works_of_data (data : value) : res (list work) :=
  groups_v <- Py.get data "group" (VList []) ;;
  groups <- Py.iter groups_v ;;
  works_loop groups [].

Local Close Scope res_scope.

(* ================================================================= *)
(** ** Effects: what the program does to the outside *)

(** What [requests.get] followed by [raise_for_status] and [.json()] comes
    to: a [RequestException] (network error, timeout, error status), a body
    that is not JSON, or a parsed document. *)
Inductive response : Type :=
| RequestFailed
| NotJson
| Json (data : value).

(** A pandas frame: column labels and rows of cells. *)
Record frame : Type := Frame {
  columns : list string;
  rows : list (list value)
}.

(** The outside of the program: the two module-level names the body of
    [fetch_orcid_works_from_excel] reads ([None] when the name is unbound),
    the spreadsheet reader ([None] when [pd.read_excel] raises), the remote
    endpoint, and the three library calls whose outcome is not the
    program's: how [time.sleep(t)] ends ([None] when it returns, the
    exception when it raises), the cells pandas holds for a column built
    from the values of the records ([None] for a record without the key),
    and how [to_excel] ends for a path, a header and a table. *)
Record world : Type := World {
  input_file : option string;
  output_file : option string;
  read_excel : string -> option frame;
  http_get : string -> response;
  time_sleep : Q -> option exn;
  pandas_column : list (option value) -> list value;
  to_excel : string -> list string -> list (list value) -> option exn
}.

Inductive event : Type :=
| HttpGet (url : string)
| PrintFail (orcid_id : string)            (* Fail to request (..): .. *)
| ReadExcel (path : string)
| PrintCannotRead                          (* Cannot read Excel file: .. *)
| PrintMissingColumns                      (* Excel must include .. *)
| PrintSkip (name : string)                (* Skip invalid ORCID for .. *)
| PrintGetting (name orcid : string)       (* Getting works for .. (..) *)
| PrintFound (n : nat)                     (* .. works found. *)
| Sleep (seconds : Q)
| ToExcel (path : string) (header : list string) (table : list (list value))
                                           (* the call of [to_excel] *)
| PrintExported (n : nat) (path : string)  (* Successfully exported .. *)
| PrintNoWorks.                            (* No works found to export. *)

(** A computation with effects: the events in order, then how it ends. *)
Definition eff (A : Type) : Type := list event * res A.

Definition eff_ret {A : Type} (a : A) : eff A := ([], Ok a).

Definition eff_bind {A B : Type} (m : eff A) (k : A -> eff B) : eff B :=
  match m with
  | (evs, Ok a) => let (evs', r) := k a in ((evs ++ evs')%list, r)
  | (evs, Raise e) => (evs, Raise e)
  end.

Definition emit (e : event) : eff unit := ([e], Ok tt).

Definition lift {A : Type} (r : res A) : eff A := ([], r).

Declare Scope eff_scope.
Delimit Scope eff_scope with eff.
Notation "x <- m ;; k" := (eff_bind m (fun x => k))
  (at level 61, m at next level, right associativity) : eff_scope.
Notation "m ;; k" := (eff_bind m (fun _ => k))
  (at level 61, right associativity) : eff_scope.

Local Open Scope eff_scope.

(** [time.sleep(t)]: the pause, or the exception the call raises. *)
Definition sleep (w : world) (t : Q) : eff unit :=
  match time_sleep w t with
  | None => emit (Sleep t)
  | Some e => lift (Raise e)
  end.

(** Lines 20-21. *)
Definition works_url (orcid_id : string) : string :=
  "https://pub.orcid.org/v3.0" ++ "/" ++ orcid_id ++ "/works".

(** [get_orcid_works], lines 9-81. *)
Definition get_orcid_works (w : world) (orcid_id : string)
  : eff (list work) :=
  let url := works_url orcid_id in
  emit (HttpGet url) ;;
  match http_get w url with
  | RequestFailed => emit (PrintFail orcid_id) ;; eff_ret []
  | NotJson => lift (Raise JSONDecodeError)
  | Json data => lift (works_of_data data)
  end.

(* ================================================================= *)
(** ** The batch orchestrator: [fetch_orcid_works_from_excel] *)

(** [row[label]] for a row of [df.iterrows()]. *)
Definition cell (labels : list string) (row : list value) (label : string)
  : res value :=
  match Py.lookup label (combine labels row) with
  | Some v => Ok v
  | None => Raise KeyError
  end.

(** [d[k] = v]: in place when the key is there, at the end otherwise. *)
Fixpoint dict_set (k : string) (v : value) (d : list (string * value))
  : list (string * value) :=
  match d with
  | [] => [(k, v)]
  | (k', v') :: rest =>
      if String.eqb k k' then (k', v) :: rest
      else (k', v') :: dict_set k v rest
  end.

(** [d.update(new)]. *)
Definition update (d new : list (string * value)) : list (string * value) :=
  fold_left (fun acc kv => dict_set (fst kv) (snd kv) acc) new d.

(** Lines 112-113: [str(c).strip()] of a cell. *)
Definition stripped (c : value) : string := Py.strip (Py.str c).

(** Line 115: [not orcid or orcid.lower() in ['nan', 'none', '', 'null']]. *)
Definition invalid_orcid (orcid : string) : bool :=
  negb (Py.truthy (VStr orcid))
  || Py.among (Py.lower orcid) ["nan"; "none"; ""; "null"].

(** Lines 123-126. *)
Definition tag (name orcid : string) (wk : work) : work :=
  update wk [("Name", VStr name); ("ORCID", VStr orcid)].

(** The loop over the rows, lines 111-130. *)
Fixpoint rows_loop (w : world) (sleep_time : Q) (labels : list string)
  (todo : list (list value)) (all_works : list work) : eff (list work) :=
  match todo with
  | [] => eff_ret all_works
  | row :: rest =>
      name_cell <- lift (cell labels row "Name") ;;
      let name := stripped name_cell in
      orcid_cell <- lift (cell labels row "ORCID") ;;
      let orcid := stripped orcid_cell in
      if invalid_orcid orcid then
        emit (PrintSkip name) ;;
        rows_loop w sleep_time labels rest all_works
      else
        emit (PrintGetting name orcid) ;;
        works <- get_orcid_works w orcid ;;
        let works := map (tag name orcid) works in
        emit (PrintFound (List.length works)) ;;
        sleep w sleep_time ;;
        rows_loop w sleep_time labels rest (all_works ++ works)%list
  end.

(** Line 134. *)
Definition desired_order : list string :=
  ["Name"; "ORCID"; "title"; "publication_date"; "journal"; "doi"].

(** Lines 140-145. *)
Definition rename (label : string) : string :=
  if String.eqb label "title" then "Title"
  else if String.eqb label "publication_date" then "Publication Date"
  else if String.eqb label "journal" then "Journal/Source"
  else if String.eqb label "doi" then "DOI"
  else label.

(** The labels of [pd.DataFrame(records)]: the keys of the records, each at
    its first appearance. *)
Definition frame_labels (records : list work) : list string :=
  fold_left
    (fun labels r =>
       fold_left
         (fun labels kv =>
            if Py.among (fst kv) labels then labels
            else (labels ++ [fst kv])%list)
         r labels)
    records [].

Definition NaN : value := VFloat "nan".

(** What [pd.DataFrame(records)] is given for the column of a label: for
    each record its value under the label, or nothing. *)
Definition raw_column (records : list work) (label : string)
  : list (option value) :=
  map (Py.lookup label) records.

(** The column of a label of [desired_order] in the frame of lines
    133-138: what pandas holds for the column when a record has the key;
    ["N/A"] in every row of a column that line 137 added. *)
Definition out_column (w : world) (records : list work) (label : string)
  : list value :=
  if Py.among label (frame_labels records)
  then pandas_column w (raw_column records label)
  else map (fun _ => Py.NA) records.

Definition out_header : list string := map rename desired_order.

(** The rows of the frame of line 138: one per record, with the cells of
    the columns of [desired_order] in this order (a column of pandas has
    one cell per record; [NaN] stands where a world gives fewer). *)
Definition out_table (w : world) (all_works : list work)
  : list (list value) :=
  let cols := map (out_column w all_works) desired_order in
  map (fun i => map (fun col => nth i col NaN) cols)
      (seq 0 (List.length all_works)).

(** Lines 132-150: the call of [to_excel] is outside any [try]. *)
Definition export (w : world) (all_works : list work) : eff unit :=
  match all_works with
  | _ :: _ =>
      match output_file w with
      | None => lift (Raise NameError)
      | Some path =>
          let table := out_table w all_works in
          emit (ToExcel path out_header table) ;;
          match to_excel w path out_header table with
          | Some e => lift (Raise e)
          | None => emit (PrintExported (List.length all_works) path)
          end
      end
  | [] => emit PrintNoWorks
  end.

(** Lines 92-150. The parameters [input_excel] and [output_excel] are the
    function's; its body reads [input_file] and [output_file]. *)
Definition fetch_orcid_works_from_excel (w : world)
  (input_excel output_excel : string) (sleep_time : Q) : eff unit :=
  match input_file w with
  | None => emit PrintCannotRead
  | Some path =>
      emit (ReadExcel path) ;;
      match read_excel w path with
      | None => emit PrintCannotRead
      | Some df_input =>
          if negb (Py.among "Name" (columns df_input))
             || negb (Py.among "ORCID" (columns df_input))
          then emit PrintMissingColumns
          else
            all_works <-
              rows_loop w sleep_time (columns df_input) (rows df_input) [] ;;
            export w all_works
      end
  end.

(** Lines 153-156: the script binds the two names, whatever the rest of
    the world is, and calls the function with the default delay. *)
Definition main (w : world) : eff unit :=
  fetch_orcid_works_from_excel
    (World (Some "orcid_list.xlsx") (Some "output_orcid_works.xlsx")
           (read_excel w) (http_get w) (time_sleep w) (pandas_column w)
           (to_excel w))
    "orcid_list.xlsx" "output_orcid_works.xlsx" (1 # 2)%Q.

Local Close Scope eff_scope.

(* ================================================================= *)
(** ** [print_works], lines 83-90 *)

(** What a function sends to the console: the text of each [print] call in
    order, then how the call ends. *)
Definition console (A : Type) : Type := list string * res A.

Definition console_bind {A B : Type} (m : console A) (k : A -> console B)
  : console B :=
  match m with
  | (out, Ok a) => let (out', r) := k a in ((out ++ out')%list, r)
  | (out, Raise e) => (out, Raise e)
  end.

Definition say (text : string) : console unit := ([text], Ok tt).

Definition look {A : Type} (r : res A) : console A := ([], r).

Declare Scope console_scope.
Delimit Scope console_scope with console.
Notation "x <- m ;; k" := (console_bind m (fun x => k))
  (at level 61, m at next level, right associativity) : console_scope.
Notation "m ;; k" := (console_bind m (fun _ => k))
  (at level 61, right associativity) : console_scope.

Local Open Scope console_scope.

Definition line_feed : string := String (ascii_of_nat 10) EmptyString.

(** The loop of lines 85-90 from the index [i] on; [work[k]] raises
    [KeyError] on a record without the key [k]. *)
Fixpoint print_works_from (i : nat) (works : list work) : console unit :=
  match works with
  | [] => ([], Ok tt)
  | wk :: rest =>
      say (line_feed ++ "--- Work " ++ Py.str_of_int (Z.of_nat i) ++ " ---") ;;
      title <- look (Py.item (VDict wk) "title") ;;
      say ("Title: " ++ Py.str title) ;;
      date <- look (Py.item (VDict wk) "publication_date") ;;
      say ("Data: " ++ Py.str date) ;;
      journal <- look (Py.item (VDict wk) "journal") ;;
      say ("Journal/Source: " ++ Py.str journal) ;;
      doi <- look (Py.item (VDict wk) "doi") ;;
      say ("DOI: " ++ Py.str doi) ;;
      print_works_from (S i) rest
  end.

(** [enumerate(works, 1)]. *)
Definition print_works (works : list work) : console unit :=
  print_works_from 1 works.

Local Close Scope console_scope.

(* ================================================================= *)
(** ** Vocabulary of the statements *)

(** The value a dict holds under a key, ["N/A"] when it has none. *)
Definition field_or_NA (k : string) (items : list (string * value)) : value :=
  match Py.lookup k items with
  | Some v => v
  | None => Py.NA
  end.

(** A key that is missing, or maps to a value Python counts as false
    ([None], an empty dict, list or string, zero, [False]). *)
Definition absent_or_empty (k : string) (items : list (string * value))
  : bool :=
  match Py.lookup k items with
  | Some v => negb (Py.truthy v)
  | None => true
  end.

(** An external-id entry whose [external-id-type] is exactly ["doi"]. *)
Definition type_is_doi (entry : list (string * value)) : bool :=
  match Py.lookup "external-id-type" entry with
  | Some t => Py.eq_str t "doi"
  | None => false
  end.

(** [part.value] of a publication date: the [value] of the dict under
    [part], [None] when the part is missing or null or has no value. *)
Definition date_value (pd : list (string * value)) (part : string) : value :=
  match Py.lookup part pd with
  | Some (VDict e) =>
      match Py.lookup "value" e with Some v => v | None => VNone end
  | _ => VNone
  end.

(** A part of a publication date as the documents carry it: missing, a
    value Python counts as false (null), or a dict. *)
Definition part_ok (pd : list (string * value)) (part : string) : bool :=
  match Py.lookup part pd with
  | None => true
  | Some (VDict _) => true
  | Some v => negb (Py.truthy v)
  end.

Definition date_ok (pd : list (string * value)) : bool :=
  part_ok pd "year" && part_ok pd "month" && part_ok pd "day".

(** [part.value], or ["01"] when that is missing or empty, as text. *)
Definition part_or_01 (pd : list (string * value)) (part : string) : string :=
  Py.str (Py.or_else (date_value pd part) (VStr "01")).





(** The event of writing the output file. *)
Definition is_write (e : event) : bool :=
  match e with
  | ToExcel _ _ _ => true
  | _ => false
  end.

(** The event of a request to the endpoint. *)
Definition is_fetch (e : event) : bool :=
  match e with
  | HttpGet _ => true
  | _ => false
  end.

(** The record of a summary with nothing in it. *)
Definition default_work : work := mk_work Py.NA VNone Py.NA Py.NA.

(* ================================================================= *)
(** ** Concrete documents, rosters and worlds *)

Definition alice_id : string := "0000-0001-1111-1111".

(** [{"value": v}] *)
Definition valued (v : value) : value := VDict [("value", v)].

Definition external_id (type v : value) : list (string * value) :=
  [("external-id-type", type); ("external-id-value", v)].

(** The work of the end-to-end example: title, a year only, no
    journal-title, one source, one doi. *)
Definition summary_paper_a : value :=
  VDict
    [("title", VDict [("title", valued (VStr "Paper A"))]);
     ("publication-date",
      VDict [("year", valued (VStr "2021")); ("month", VNone);
             ("day", VNone)]);
     ("journal-title", VNone);
     ("source", VList [VDict [("source-name", valued (VStr "Conf X"))]]);
     ("external-ids",
      VDict [("external-id",
              VList [VDict (external_id (VStr "doi") (VStr "10.1/xyz"))])])].

(** A summary whose title, journal and doi values are null. *)
Definition summary_null_leaves : value :=
  VDict
    [("title", VDict [("title", valued VNone)]);
     ("journal-title", valued VNone);
     ("external-ids",
      VDict [("external-id",
              VList [VDict (external_id (VStr "doi") VNone)])])].

(** Year 2023, month 3, day 7, as numbers. *)
Definition date_2023_3_7 : list (string * value) :=
  [("year", valued (VInt 2023)); ("month", valued (VInt 3));
   ("day", valued (VInt 7))].

(** A null year next to a month. *)
Definition date_no_year : list (string * value) :=
  [("year", VNone); ("month", valued (VStr "5"))].

Definition crossref_source : list (string * value) :=
  [("source-name", valued (VStr "Crossref"))].

Definition ids_before_doi : list (list (string * value)) :=
  [external_id (VStr "eid") (VStr "e1");
   external_id (VStr "DOI") (VStr "upper")].

Definition ids_after_doi : list value :=
  [VInt 7; VDict (external_id (VStr "doi") (VStr "second"))].

(** The endpoint that answers [doc] for Alice and fails for anyone else. *)
Definition endpoint_alice (doc : value) (url : string) : response :=
  if String.eqb url (works_url alice_id) then Json doc else RequestFailed.

(** A reader that finds a roster with the two columns at every path. *)
Definition roster (cells : list (list value)) (path : string)
  : option frame :=
  Some (Frame ["Name"; "ORCID"] cells).

(** A pause that returns, whatever its length. *)
Definition pause_returns (t : Q) : option exn := None.

(** A column that holds the values it is built from, [NaN] where a record
    has none: what pandas does with a column of text, and with a column of
    nulls only. *)
Definition kept (cell : option value) : value :=
  match cell with
  | Some v => v
  | None => NaN
  end.

Definition column_kept (cells : list (option value)) : list value :=
  map kept cells.

(** A write that succeeds. *)
Definition write_succeeds (path : string) (header : list string)
  (table : list (list value)) : option exn := None.

(** A write that finds no engine for the file type. *)
Definition write_fails (path : string) (header : list string)
  (table : list (list value)) : option exn := Some ValueError.

Definition world_of (inp out : option string) (cells : list (list value))
  (doc : value) : world :=
  World inp out (roster cells) (endpoint_alice doc)
        pause_returns column_kept write_succeeds.

(** Documents used as concrete inputs. *)
Definition doc_of_summaries (summaries : list value) : value :=
  VDict [("group", VList [VDict [("work-summary", VList summaries)]])].

(** [{"group": [{"work-summary": []}]}] *)
Definition doc_empty_summaries : value := doc_of_summaries [].

(** [{"group": [{"work-summary": [{"title": null}]}]}] *)
Definition doc_null_title : value :=
  doc_of_summaries [VDict [("title", VNone)]].

(* ================================================================= *)
(** ** Shapes of documents *)

Definition is_dict (v : value) : bool :=
  match v with
  | VDict _ => true
  | _ => false
  end.

(** A key that is missing or maps to a dict. *)
Definition absent_or_dict (k : string) (items : list (string * value))
  : bool :=
  match Py.lookup k items with
  | Some v => is_dict v
  | None => true
  end.

(** [title] is missing, or a dict whose [title] is missing or a dict. *)
Definition title_ok (ws : list (string * value)) : bool :=
  match Py.lookup "title" ws with
  | None => true
  | Some (VDict t) => absent_or_dict "title" t
  | Some _ => false
  end.

(** [publication-date] is missing, null, or a dict with parts of the
    accepted shape. *)
Definition pub_date_ok (ws : list (string * value)) : bool :=
  match Py.lookup "publication-date" ws with
  | None => true
  | Some (VDict pd) => date_ok pd
  | Some v => negb (Py.truthy v)
  end.

(** [source] is missing, null or empty, or a list whose first entry is a
    dict with no [source-name] or a dict under it. *)
Definition source_ok (ws : list (string * value)) : bool :=
  match Py.lookup "source" ws with
  | None => true
  | Some (VList (VDict src :: _)) => absent_or_dict "source-name" src
  | Some v => negb (Py.truthy v)
  end.

(** [journal-title] is a non-empty dict, or it is missing, null or empty
    and [source] has the accepted shape. *)
Definition journal_ok (ws : list (string * value)) : bool :=
  match Py.lookup "journal-title" ws with
  | None => source_ok ws
  | Some (VDict (_ :: _)) => true
  | Some v => negb (Py.truthy v) && source_ok ws
  end.

(** [external-ids] is missing, or a dict whose [external-id] is missing or
    a list of dicts. *)
Definition ids_ok (ws : list (string * value)) : bool :=
  match Py.lookup "external-ids" ws with
  | None => true
  | Some (VDict ids) =>
      match Py.lookup "external-id" ids with
      | None => true
      | Some (VList entries) => forallb is_dict entries
      | Some _ => false
      end
  | Some _ => false
  end.

Definition summary_ok (ws : list (string * value)) : bool :=
  title_ok ws && pub_date_ok ws && journal_ok ws && ids_ok ws.

(** A group with no [work-summary], or with a list of summaries whose
    first is a dict of the accepted shape. *)
Definition group_ok (g : list (string * value)) : bool :=
  match Py.lookup "work-summary" g with
  | None => true
  | Some (VList (VDict ws :: _)) => summary_ok ws
  | Some _ => false
  end.

(** A record as the extractor builds it: the four keys in order, the date
    null or text. *)
Definition is_record (wk : work) : Prop :=
  exists title date journal doi,
    wk = mk_work title date journal doi
    /\ (date = VNone \/ exists text, date = VStr text).

(** A record of the accumulator: an extractor record tagged with a name
    and an identifier. *)
Definition is_tagged (wk : work) : Prop :=
  exists name orcid title date journal doi,
    wk = tag name orcid (mk_work title date journal doi)
    /\ (date = VNone \/ exists text, date = VStr text).

(** A record of the accumulator next to its row of the output table. *)
Definition row_of_record (wk : work) (row : list value) : Prop :=
  exists name orcid title date journal doi,
    wk = tag name orcid (mk_work title date journal doi)
    /\ row = [VStr name; VStr orcid; title; date; journal; doi].

(** The URLs the loop over the rows asks for: one for each row whose
    identifier is not skipped. *)
Fixpoint requested (labels : list string) (todo : list (list value))
  : list string :=
  match todo with
  | [] => []
  | row :: rest =>
      match cell labels row "ORCID" with
      | Ok oc =>
          if invalid_orcid (stripped oc) then requested labels rest
          else works_url (stripped oc) :: requested labels rest
      | Raise _ => []
      end
  end.

Definition is_sleep (e : event) : bool :=
  match e with
  | Sleep _ => true
  | _ => false
  end.

(* ================================================================= *)
(** ** The extractor: results *)

Lemma get_dict (items : list (string * value)) (k : string) (dflt : value) :
  Py.get (VDict items) k dflt
  = Ok (match Py.lookup k items with Some v => v | None => dflt end).
Proof. reflexivity. Qed.

Lemma no_group_key (d : list (string * value)) :
  Py.lookup "group" d = None -> works_of_data (VDict d) = Ok [].
Proof.
  intros H. unfold works_of_data. rewrite get_dict, H. reflexivity.
Qed.

(** C1. The claim: extraction never raises on malformed or missing
    optional fields, in particular for a group whose [work-summary] is an
    empty list and for a summary whose [title] is null. On the code both
    documents make the loop raise: indexing the empty list at line 40 is an
    [IndexError], and calling [.get] on [None] at line 42 is an
    [AttributeError]. *)
Theorem C1_malformed_optional_fields_raise :
  works_of_data doc_empty_summaries = Raise IndexError
  /\ works_of_data doc_null_title = Raise AttributeError.
Proof. split; reflexivity. Qed.

(** *** DOI *)

Lemma doi_scan_skips (pre : list (list (string * value))) (rest : list value) :
  Forall (fun e => type_is_doi e = false) pre ->
  doi_scan (map VDict pre ++ rest)%list = doi_scan rest.
Proof.
  induction 1 as [| e pre He _ IH]; [reflexivity |].
  cbn [map app doi_scan]. rewrite get_dict. cbn [res_bind].
  unfold type_is_doi in He.
  destruct (Py.lookup "external-id-type" e) as [t |].
  - rewrite He. exact IH.
  - exact IH.
Qed.

Lemma doi_scan_hit (e : list (string * value)) (rest : list value) :
  type_is_doi e = true ->
  doi_scan (VDict e :: rest) = Ok (field_or_NA "external-id-value" e).
Proof.
  intros He. cbn [doi_scan]. rewrite get_dict. cbn [res_bind].
  unfold type_is_doi in He.
  destruct (Py.lookup "external-id-type" e) as [t |]; [| discriminate].
  rewrite He. apply get_dict.
Qed.

Lemma doi_of_entries (ws ids : list (string * value)) (entries : list value) :
  Py.lookup "external-ids" ws = Some (VDict ids) ->
  Py.lookup "external-id" ids = Some (VList entries) ->
  doi_of (VDict ws) = doi_scan entries.
Proof.
  intros Hids Hentries. unfold doi_of.
  rewrite get_dict, Hids. cbn [res_bind].
  rewrite get_dict, Hentries. reflexivity.
Qed.

(** C4. The claim: with no entry of type ["doi"] the doi is ["N/A"]. On
    the code a summary whose [external-ids] is null raises
    [AttributeError] at line 68 ([.get] on [None]: the default dict
    stands in for a missing key only), and one whose [external-id] is null
    raises [TypeError] at line 69 ([for] over [None]); the exception
    leaves the extraction of the whole document. *)
Theorem C4_null_external_ids_raise :
  doi_of (VDict [("external-ids", VNone)]) = Raise AttributeError
  /\ doi_of (VDict [("external-ids", VDict [("external-id", VNone)])])
     = Raise TypeError
  /\ works_of_data (doc_of_summaries [VDict [("external-ids", VNone)]])
     = Raise AttributeError
  /\ works_of_data
       (doc_of_summaries
          [VDict [("external-ids", VDict [("external-id", VNone)])]])
     = Raise TypeError.
Proof. repeat split. Qed.

(** X22. For a summary whose [external-ids] is a dict with a list of
    dicts under [external-id], the doi is the [external-id-value] of the
    first entry whose [external-id-type] is exactly ["doi"] (["N/A"] when
    that entry has no value): entries of other types before it are passed
    over, and whatever follows it is not looked at, dict or not. With no
    such entry, with no [external-id] key, or with no [external-ids] key,
    the doi is ["N/A"]. A type spelled ["DOI"] is another type. *)
Theorem doi_is_the_first_exact_match
  (ws ids : list (string * value))
  (pre : list (list (string * value))) (hit : list (string * value))
  (post : list value) :
  (Py.lookup "external-ids" ws = Some (VDict ids) ->
   Py.lookup "external-id" ids
     = Some (VList (map VDict pre ++ VDict hit :: post)%list) ->
   Forall (fun e => type_is_doi e = false) pre ->
   type_is_doi hit = true ->
   doi_of (VDict ws) = Ok (field_or_NA "external-id-value" hit))
  /\ (Py.lookup "external-ids" ws = Some (VDict ids) ->
      Py.lookup "external-id" ids = Some (VList (map VDict pre)) ->
      Forall (fun e => type_is_doi e = false) pre ->
      doi_of (VDict ws) = Ok Py.NA)
  /\ (Py.lookup "external-ids" ws = None -> doi_of (VDict ws) = Ok Py.NA)
  /\ type_is_doi [("external-id-type", VStr "DOI")] = false
  /\ (Py.lookup "external-ids" ws = Some (VDict ids) ->
      Py.lookup "external-id" ids = None ->
      doi_of (VDict ws) = Ok Py.NA).
Proof.
  split; [| split; [| split; [| split; [reflexivity |]]]].
  - intros Hids Hentries Hpre Hhit.
    rewrite (doi_of_entries _ _ _ Hids Hentries).
    rewrite (doi_scan_skips _ _ Hpre). now apply doi_scan_hit.
  - intros Hids Hentries Hpre.
    rewrite (doi_of_entries _ _ _ Hids Hentries).
    rewrite <- (app_nil_r (map VDict pre)).
    now rewrite (doi_scan_skips _ _ Hpre).
  - intros Hnone. unfold doi_of. rewrite get_dict, Hnone. reflexivity.
  - intros Hids Hnone. unfold doi_of. rewrite get_dict, Hids.
    cbn [res_bind]. rewrite get_dict, Hnone. reflexivity.
Qed.

(** *** Publication date *)

Lemma date_part_value (pd : list (string * value)) (part : string)
  (dflt : value) :
  part_ok pd part = true ->
  date_part (VDict pd) part dflt = Ok (Py.or_else (date_value pd part) dflt).
Proof.
  unfold part_ok, date_part, date_value. rewrite get_dict. cbn [res_bind].
  destruct (Py.lookup part pd) as [e |]; [| reflexivity].
  destruct e as [| b | n | r | t | xs | items]; intros Hok;
    try (unfold Py.or_else at 1; apply negb_true_iff in Hok; rewrite Hok;
         reflexivity).
  unfold Py.or_else at 1. destruct (Py.truthy (VDict items)) eqn:Ht.
  - reflexivity.
  - destruct items; [reflexivity | discriminate].
Qed.

Lemma zfill_one (c : ascii) :
  Py.is_sign c = false -> Py.zfill (Py.str1 c) 2 = String "0" (Py.str1 c).
Proof. intros H. unfold Py.zfill, Py.str1. cbn. now rewrite H. Qed.

Lemma zfill_wide (s : string) :
  2 <= String.length s -> Py.zfill s 2 = s.
Proof.
  intros H. unfold Py.zfill. apply Nat.leb_le in H. now rewrite H.
Qed.

(** C2. With no [publication-date] key (or a null one) the date is absent.
    With a [publication-date] dict whose parts are each missing, null or a
    dict: a missing or empty [year.value] gives an absent date whatever the
    month and day are; otherwise the date is the year, the month and the
    day joined by dashes, the month and the day being their [value] or
    ["01"] when that is missing or empty, each passed through [zfill(2)],
    which puts a zero before a single character and leaves longer text as
    it is. *)
Theorem C2_publication_date (ws pd : list (string * value)) :
  (absent_or_empty "publication-date" ws = true ->
   publication_date_of (VDict ws) = Ok VNone)
  /\ (Py.lookup "publication-date" ws = Some (VDict pd) ->
      date_ok pd = true ->
      Py.truthy (date_value pd "year") = false ->
      publication_date_of (VDict ws) = Ok VNone)
  /\ (Py.lookup "publication-date" ws = Some (VDict pd) ->
      date_ok pd = true ->
      Py.truthy (date_value pd "year") = true ->
      publication_date_of (VDict ws)
      = Ok (VStr (Py.str (date_value pd "year")
                  ++ "-" ++ Py.zfill (part_or_01 pd "month") 2
                  ++ "-" ++ Py.zfill (part_or_01 pd "day") 2)))
  /\ (Py.lookup "month" pd = None -> part_or_01 pd "month" = "01")
  /\ (Py.lookup "day" pd = None -> part_or_01 pd "day" = "01")
  /\ (forall c, Py.is_sign c = false ->
                Py.zfill (Py.str1 c) 2 = String "0" (Py.str1 c))
  /\ (forall s, 2 <= String.length s -> Py.zfill s 2 = s).
Proof.
  assert (Hdate : Py.lookup "publication-date" ws = Some (VDict pd) ->
                  date_ok pd = true ->
                  publication_date_of (VDict ws)
                  = Ok (if Py.truthy (date_value pd "year")
                        then VStr (Py.str (date_value pd "year")
                                   ++ "-" ++ Py.zfill (part_or_01 pd "month") 2
                                   ++ "-" ++ Py.zfill (part_or_01 pd "day") 2)
                        else VNone)).
  { intros Hpd Hok. unfold date_ok in Hok.
    apply andb_true_iff in Hok as [Hok Hd].
    apply andb_true_iff in Hok as [Hy Hm].
    unfold publication_date_of. rewrite get_dict, Hpd. cbn [res_bind].
    destruct (Py.truthy (VDict pd)) eqn:Hpdt.
    - rewrite (date_part_value _ _ _ Hy), (date_part_value _ _ _ Hm),
        (date_part_value _ _ _ Hd). cbn [res_bind].
      unfold Py.or_else at 1 2.
      destruct (Py.truthy (date_value pd "year")) eqn:Hyear.
      + rewrite Hyear. reflexivity.
      + reflexivity.
    - destruct pd; [reflexivity | discriminate]. }
  repeat split.
  - unfold absent_or_empty, publication_date_of. rewrite get_dict.
    destruct (Py.lookup "publication-date" ws) as [v |]; [| reflexivity].
    intros Hv. apply negb_true_iff in Hv. cbn [res_bind]. now rewrite Hv.
  - intros Hpd Hok Hyear. rewrite (Hdate Hpd Hok), Hyear. reflexivity.
  - intros Hpd Hok Hyear. rewrite (Hdate Hpd Hok), Hyear. reflexivity.
  - intros H. unfold part_or_01, date_value. now rewrite H.
  - intros H. unfold part_or_01, date_value. now rewrite H.
  - exact zfill_one.
  - exact zfill_wide.
Qed.

(** *** Journal *)

Lemma journal_from_title (ws jt : list (string * value)) :
  Py.lookup "journal-title" ws = Some (VDict jt) ->
  jt <> [] ->
  journal_title_of (VDict ws) = Ok (field_or_NA "value" jt).
Proof.
  intros Hjt Hne. unfold journal_title_of, Py.contains, Py.has_key, Py.item.
  rewrite Hjt. cbn [res_bind].
  destruct jt as [| kv jt]; [congruence |]. reflexivity.
Qed.

Lemma journal_from_source (ws : list (string * value)) :
  absent_or_empty "journal-title" ws = true ->
  journal_title_of (VDict ws)
  = res_bind (Py.get (VDict ws) "source" (VList []))
      (fun source_names =>
         if Py.truthy source_names then
           res_bind (Py.item0 source_names)
             (fun source =>
                res_bind (Py.contains "source-name" source)
                  (fun named =>
                     if named then
                       res_bind (Py.item source "source-name")
                         (fun sn => Py.get sn "value" Py.NA)
                     else Ok Py.NA))
         else Ok Py.NA).
Proof.
  unfold absent_or_empty, journal_title_of, Py.contains, Py.has_key, Py.item.
  destruct (Py.lookup "journal-title" ws) as [v |]; [| reflexivity].
  intros Hv. apply negb_true_iff in Hv. cbn [res_bind]. now rewrite Hv.
Qed.

(** C3. The claim: with no journal-title the journal is the
    [source-name.value] of the first source, and ["N/A"] when neither is
    available. On the code a first source whose [source-name] is null
    raises [AttributeError] at line 65: the test of line 64 is on the key
    only, so [.get] is called on [None], with [journal-title] missing or
    null alike; the exception leaves the extraction of the whole
    document. *)
Theorem C3_null_source_name_raises :
  journal_title_of
    (VDict [("source", VList [VDict [("source-name", VNone)]])])
  = Raise AttributeError
  /\ journal_title_of
       (VDict [("journal-title", VNone);
               ("source", VList [VDict [("source-name", VNone)]])])
     = Raise AttributeError
  /\ works_of_data
       (doc_of_summaries
          [VDict [("journal-title", VNone);
                  ("source", VList [VDict [("source-name", VNone)]])]])
     = Raise AttributeError.
Proof. repeat split. Qed.

(** X21. A [journal-title] that is a non-empty dict gives the journal: its
    [value] (["N/A"] when it has none), whatever [source] holds. With
    [journal-title] missing, null or empty and a [source] list whose first
    entry is a dict: the journal is the [value] of its [source-name] when
    that is a dict (["N/A"] when it has no value), and ["N/A"] when the
    entry has no [source-name]. With [source] missing, null or empty too,
    the journal is ["N/A"]. *)
Theorem journal_prefers_journal_title
  (ws jt src sn : list (string * value)) (more : list value) :
  (Py.lookup "journal-title" ws = Some (VDict jt) ->
   jt <> [] ->
   journal_title_of (VDict ws) = Ok (field_or_NA "value" jt))
  /\ (absent_or_empty "journal-title" ws = true ->
      Py.lookup "source" ws = Some (VList (VDict src :: more)) ->
      Py.lookup "source-name" src = Some (VDict sn) ->
      journal_title_of (VDict ws) = Ok (field_or_NA "value" sn))
  /\ (absent_or_empty "journal-title" ws = true ->
      Py.lookup "source" ws = Some (VList (VDict src :: more)) ->
      Py.lookup "source-name" src = None ->
      journal_title_of (VDict ws) = Ok Py.NA)
  /\ (absent_or_empty "journal-title" ws = true ->
      absent_or_empty "source" ws = true ->
      journal_title_of (VDict ws) = Ok Py.NA).
Proof.
  repeat split.
  - apply journal_from_title.
  - intros Habs Hsrc Hsn. rewrite (journal_from_source _ Habs).
    rewrite get_dict, Hsrc.
    cbn [res_bind Py.truthy Py.item0 Py.contains Py.item]. unfold Py.has_key.
    rewrite Hsn. reflexivity.
  - intros Habs Hsrc Hsn. rewrite (journal_from_source _ Habs).
    rewrite get_dict, Hsrc.
    cbn [res_bind Py.truthy Py.item0 Py.contains Py.item]. unfold Py.has_key.
    rewrite Hsn. reflexivity.
  - intros Habs Hsrc. rewrite (journal_from_source _ Habs).
    rewrite get_dict. unfold absent_or_empty in Hsrc.
    destruct (Py.lookup "source" ws) as [v |]; [| reflexivity].
    apply negb_true_iff in Hsrc. cbn [res_bind]. now rewrite Hsrc.
Qed.

(** *** Groups without a summary *)

Lemma work_of_group_default (g : list (string * value)) :
  Py.lookup "work-summary" g = None ->
  work_of_group (VDict g) = Ok default_work.
Proof.
  intros H. unfold work_of_group, work_summary_of.
  rewrite get_dict, H. reflexivity.
Qed.




(* ================================================================= *)
(** ** The orchestrator: results *)

Lemma eff_bind_lift_ok {A B : Type} (a : A) (k : A -> eff B) :
  eff_bind (lift (Ok a)) k = k a.
Proof. unfold eff_bind, lift. now destruct (k a). Qed.

Lemma eff_bind_emit {B : Type} (e : event) (k : unit -> eff B) :
  eff_bind (emit e) k = (e :: fst (k tt), snd (k tt)).
Proof. unfold eff_bind, emit. now destruct (k tt). Qed.

Lemma eff_bind_events {A B : Type} (p : event -> bool) (m : eff A)
  (k : A -> eff B) :
  existsb p (fst m) = false ->
  (forall a, existsb p (fst (k a)) = false) ->
  existsb p (fst (eff_bind m k)) = false.
Proof.
  destruct m as [evs [a | e]]; cbn [fst eff_bind]; intros Hm Hk.
  - specialize (Hk a). destruct (k a) as [evs' r]. cbn [fst] in *.
    rewrite existsb_app, Hm, Hk. reflexivity.
  - exact Hm.
Qed.

Lemma get_orcid_works_no_write (w : world) (orcid_id : string) :
  existsb is_write (fst (get_orcid_works w orcid_id)) = false.
Proof.
  unfold get_orcid_works. apply eff_bind_events; [reflexivity |].
  intros _. destruct (http_get w (works_url orcid_id)); reflexivity.
Qed.

Lemma sleep_no_write (w : world) (t : Q) :
  existsb is_write (fst (sleep w t)) = false.
Proof. unfold sleep. now destruct (time_sleep w t). Qed.

Lemma rows_loop_no_write (w : world) (sleep_time : Q) (labels : list string)
  (todo : list (list value)) :
  forall all_works,
    existsb is_write (fst (rows_loop w sleep_time labels todo all_works))
    = false.
Proof.
  induction todo as [| row rest IH]; intros all_works; [reflexivity |].
  cbn [rows_loop].
  apply eff_bind_events; [reflexivity | intros nc].
  apply eff_bind_events; [reflexivity | intros oc].
  destruct (invalid_orcid (stripped oc)).
  - apply eff_bind_events; [reflexivity | intros _; apply IH].
  - apply eff_bind_events; [reflexivity | intros _].
    apply eff_bind_events; [apply get_orcid_works_no_write | intros works].
    apply eff_bind_events; [reflexivity | intros _].
    apply eff_bind_events; [apply sleep_no_write | intros _; apply IH].
Qed.

Lemma rows_loop_skip (w : world) (sleep_time : Q) (labels : list string)
  (row : list value) (rest : list (list value)) (all_works : list work)
  (nc oc : value) :
  cell labels row "Name" = Ok nc ->
  cell labels row "ORCID" = Ok oc ->
  invalid_orcid (stripped oc) = true ->
  rows_loop w sleep_time labels (row :: rest) all_works
  = (PrintSkip (stripped nc)
       :: fst (rows_loop w sleep_time labels rest all_works),
     snd (rows_loop w sleep_time labels rest all_works)).
Proof.
  intros Hn Ho Hbad. cbn [rows_loop].
  rewrite Hn, eff_bind_lift_ok, Ho, eff_bind_lift_ok, Hbad.
  apply eff_bind_emit.
Qed.

Lemma rows_loop_fetch (w : world) (sleep_time : Q) (labels : list string)
  (row : list value) (rest : list (list value)) (all_works : list work)
  (nc oc : value) :
  cell labels row "Name" = Ok nc ->
  cell labels row "ORCID" = Ok oc ->
  invalid_orcid (stripped oc) = false ->
  rows_loop w sleep_time labels (row :: rest) all_works
  = eff_bind (emit (PrintGetting (stripped nc) (stripped oc)))
      (fun _ =>
         eff_bind (get_orcid_works w (stripped oc))
           (fun works =>
              let tagged := map (tag (stripped nc) (stripped oc)) works in
              eff_bind (emit (PrintFound (List.length tagged)))
                (fun _ =>
                   eff_bind (sleep w sleep_time)
                     (fun _ =>
                        rows_loop w sleep_time labels rest
                          (all_works ++ tagged)%list)))).
Proof.
  intros Hn Ho Hgood. cbn [rows_loop].
  rewrite Hn, eff_bind_lift_ok, Ho, eff_bind_lift_ok, Hgood.
  reflexivity.
Qed.










Lemma sentinel_invalid (orcid : string) :
  orcid = "" \/ In (Py.lower orcid) ["nan"; "none"; "null"] ->
  invalid_orcid orcid = true.
Proof.
  intros [-> | Hin]; [reflexivity |].
  unfold invalid_orcid. apply orb_true_iff. right.
  unfold Py.among. apply existsb_exists.
  exists (Py.lower orcid). split; [| apply String.eqb_refl].
  cbn in Hin |- *. intuition.
Qed.

(** C6. A row whose identifier, read as [str(cell).strip()], is empty or
    is ["nan"], ["none"] or ["null"] once lowered, is skipped: the loop
    prints the skip notice and goes on with the next row and the same
    accumulator. So the row sends no request, adds no record and raises
    nothing. *)
Theorem C6_invalid_identifier_is_skipped
  (w : world) (sleep_time : Q) (labels : list string)
  (row : list value) (rest : list (list value)) (all_works : list work)
  (nc oc : value) :
  cell labels row "Name" = Ok nc ->
  cell labels row "ORCID" = Ok oc ->
  stripped oc = "" \/ In (Py.lower (stripped oc)) ["nan"; "none"; "null"] ->
  rows_loop w sleep_time labels (row :: rest) all_works
  = (PrintSkip (stripped nc)
       :: fst (rows_loop w sleep_time labels rest all_works),
     snd (rows_loop w sleep_time labels rest all_works)).
Proof.
  intros Hn Ho Hbad. apply (rows_loop_skip _ _ _ _ _ _ _ _ Hn Ho).
  now apply sentinel_invalid.
Qed.

Lemma run_to_export (w : world) (input_excel output_excel path : string)
  (sleep_time : Q) (df : frame) :
  input_file w = Some path ->
  read_excel w path = Some df ->
  Py.among "Name" (columns df) = true ->
  Py.among "ORCID" (columns df) = true ->
  fetch_orcid_works_from_excel w input_excel output_excel sleep_time
  = eff_bind (emit (ReadExcel path))
      (fun _ =>
         eff_bind (rows_loop w sleep_time (columns df) (rows df) [])
           (export w)).
Proof.
  intros Hin Hread Hname Horcid. unfold fetch_orcid_works_from_excel.
  rewrite Hin, Hread, Hname, Horcid. reflexivity.
Qed.

(** C7. When the rows have been gone through and the accumulator is empty,
    the export step does one thing, the notice that there is nothing to
    export, and the run returns: after the read of the input and the events
    of the rows, the notice is the last event, nothing is raised, and no
    event of the run writes the output file. *)
Theorem C7_empty_accumulator_writes_nothing
  (w : world) (input_excel output_excel path : string) (sleep_time : Q)
  (df : frame) (evs : list event) :
  input_file w = Some path ->
  read_excel w path = Some df ->
  Py.among "Name" (columns df) = true ->
  Py.among "ORCID" (columns df) = true ->
  rows_loop w sleep_time (columns df) (rows df) [] = (evs, Ok []) ->
  export w [] = ([PrintNoWorks], Ok tt)
  /\ fetch_orcid_works_from_excel w input_excel output_excel sleep_time
     = (ReadExcel path :: evs ++ [PrintNoWorks], Ok tt)%list
  /\ existsb is_write
       (fst (fetch_orcid_works_from_excel w input_excel output_excel
               sleep_time)) = false.
Proof.
  intros Hin Hread Hname Horcid Hloop. split; [reflexivity |].
  assert (Hrun : fetch_orcid_works_from_excel w input_excel output_excel
                   sleep_time
                 = (ReadExcel path :: evs ++ [PrintNoWorks], Ok tt)%list).
  { rewrite (run_to_export _ _ _ _ _ _ Hin Hread Hname Horcid).
    rewrite eff_bind_emit, Hloop. reflexivity. }
  split; [exact Hrun |].
  rewrite Hrun. cbn [fst existsb is_write orb].
  rewrite existsb_app. cbn [existsb is_write orb].
  pose proof (rows_loop_no_write w sleep_time (columns df) (rows df) []) as Hq.
  rewrite Hloop in Hq. cbn [fst] in Hq. now rewrite Hq.
Qed.

(** C8. The run does not depend on the arguments [input_excel] and
    [output_excel]: the body reads the module-level names [input_file] and
    [output_file]. With [input_file] unbound the run ends with the notice
    an unreadable file gets, before any read. With [output_file] unbound
    and a non-empty accumulator, the run raises [NameError] at the write,
    and nothing has been written. *)
Theorem C8_parameters_ignored_globals_read
  (w : world) (input_excel output_excel input_excel' output_excel' : string)
  (sleep_time : Q) :
  fetch_orcid_works_from_excel w input_excel output_excel sleep_time
  = fetch_orcid_works_from_excel w input_excel' output_excel' sleep_time
  /\ (input_file w = None ->
      fetch_orcid_works_from_excel w input_excel output_excel sleep_time
      = ([PrintCannotRead], Ok tt))
  /\ (forall path,
        input_file w = Some path -> read_excel w path = None ->
        fetch_orcid_works_from_excel w input_excel output_excel sleep_time
        = ([ReadExcel path; PrintCannotRead], Ok tt))
  /\ (forall path df evs wk wks,
        input_file w = Some path ->
        read_excel w path = Some df ->
        Py.among "Name" (columns df) = true ->
        Py.among "ORCID" (columns df) = true ->
        rows_loop w sleep_time (columns df) (rows df) []
        = (evs, Ok (wk :: wks)) ->
        output_file w = None ->
        fetch_orcid_works_from_excel w input_excel output_excel sleep_time
        = (ReadExcel path :: evs, Raise NameError)
        /\ existsb is_write (ReadExcel path :: evs) = false).
Proof.
  split; [reflexivity | split; [| split]].
  - intros Hin. unfold fetch_orcid_works_from_excel. now rewrite Hin.
  - intros path Hin Hread. unfold fetch_orcid_works_from_excel.
    now rewrite Hin, Hread.
  - intros path df evs wk wks Hin Hread Hname Horcid Hloop Hout. split.
    + rewrite (run_to_export _ _ _ _ _ _ Hin Hread Hname Horcid).
      rewrite eff_bind_emit, Hloop. cbn [eff_bind export]. rewrite Hout.
      cbn. now rewrite app_nil_r.
    + cbn [existsb is_write orb].
      pose proof (rows_loop_no_write w sleep_time (columns df) (rows df) [])
        as Hq.
      rewrite Hloop in Hq. exact Hq.
Qed.

Lemma export_writes_fixed_header (w : world) (path : string) (wk : work)
  (wks : list work) :
  output_file w = Some path ->
  to_excel w path out_header (out_table w (wk :: wks)) = None ->
  export w (wk :: wks)
  = ([ToExcel path
        ["Name"; "ORCID"; "Title"; "Publication Date"; "Journal/Source";
         "DOI"]
        (out_table w (wk :: wks));
      PrintExported (S (List.length wks)) path], Ok tt)
  /\ Forall (fun r => List.length r = 6) (out_table w (wk :: wks)).
Proof.
  intros Hout Hwrite. split.
  - unfold export. rewrite Hout. cbn zeta. rewrite eff_bind_emit, Hwrite.
    reflexivity.
  - unfold out_table. apply Forall_forall. intros r Hr.
    apply in_map_iff in Hr as [x [<- _]]. reflexivity.
Qed.

(** C5. The claim: title, journal and doi of an exported record are a real
    value or ["N/A"], never null. On the code a summary whose [value]
    leaves are null goes through: the run below exports Alice's record
    with null under Title, Journal/Source and DOI. (The header is the fixed
    one, and the date may be null as the claim allows.) *)
Theorem C5_null_leaves_reach_the_export :
  main (world_of None None [[VStr "Alice"; VStr alice_id]]
          (doc_of_summaries [summary_null_leaves]))
  = ([ReadExcel "orcid_list.xlsx";
      PrintGetting "Alice" alice_id;
      HttpGet (works_url alice_id);
      PrintFound 1;
      Sleep (1 # 2);
      ToExcel "output_orcid_works.xlsx"
        ["Name"; "ORCID"; "Title"; "Publication Date"; "Journal/Source";
         "DOI"]
        [[VStr "Alice"; VStr alice_id; VNone; VNone; VNone; VNone]];
      PrintExported 1 "output_orcid_works.xlsx"],
     Ok tt).
Proof. vm_compute. reflexivity. Qed.

(** The end-to-end example: Alice has one work, Bob has no identifier. *)
Example end_to_end_alice_and_bob :
  main (world_of None None
          [[VStr "Alice"; VStr alice_id]; [VStr "Bob"; VStr ""]]
          (doc_of_summaries [summary_paper_a]))
  = ([ReadExcel "orcid_list.xlsx";
      PrintGetting "Alice" alice_id;
      HttpGet (works_url alice_id);
      PrintFound 1;
      Sleep (1 # 2);
      PrintSkip "Bob";
      ToExcel "output_orcid_works.xlsx"
        ["Name"; "ORCID"; "Title"; "Publication Date"; "Journal/Source";
         "DOI"]
        [[VStr "Alice"; VStr alice_id; VStr "Paper A"; VStr "2021-01-01";
          VStr "Conf X"; VStr "10.1/xyz"]];
      PrintExported 1 "output_orcid_works.xlsx"],
     Ok tt).
Proof. vm_compute. reflexivity. Qed.

(* ================================================================= *)
(** ** The results at concrete inputs *)

(** The date of the specification (2023, 3, 7), a null year next to a
    month, a null date and no date. *)
Lemma C2_publication_date_witness :
  publication_date_of (VDict [("publication-date", VDict date_2023_3_7)])
  = Ok (VStr "2023-03-07")
  /\ publication_date_of (VDict [("publication-date", VDict date_no_year)])
     = Ok VNone
  /\ publication_date_of (VDict [("publication-date", VNone)]) = Ok VNone
  /\ publication_date_of (VDict []) = Ok VNone.
Proof.
  split; [| split; [| split]].
  - apply (proj1 (proj2 (proj2
      (C2_publication_date [("publication-date", VDict date_2023_3_7)]
                           date_2023_3_7)))); reflexivity.
  - apply (proj1 (proj2
      (C2_publication_date [("publication-date", VDict date_no_year)]
                           date_no_year))); reflexivity.
  - apply (proj1 (C2_publication_date [("publication-date", VNone)] []));
      reflexivity.
  - apply (proj1 (C2_publication_date [] [])); reflexivity.
Defined.

(** Both present, source only, a source with no name, neither. *)
Lemma journal_prefers_journal_title_witness :
  journal_title_of
    (VDict [("journal-title", valued (VStr "Nature"));
            ("source", VList [VDict crossref_source])])
  = Ok (VStr "Nature")
  /\ journal_title_of
       (VDict [("journal-title", VNone);
               ("source", VList [VDict crossref_source])])
     = Ok (VStr "Crossref")
  /\ journal_title_of
       (VDict [("source", VList [VDict [("source-orcid", VNone)]])])
     = Ok (VStr "N/A")
  /\ journal_title_of (VDict [("journal-title", VNone)]) = Ok (VStr "N/A").
Proof.
  split; [| split; [| split]].
  - apply (proj1
      (journal_prefers_journal_title
         [("journal-title", valued (VStr "Nature"));
          ("source", VList [VDict crossref_source])]
         [("value", VStr "Nature")] [] [] []));
      [reflexivity | discriminate].
  - apply (proj1 (proj2
      (journal_prefers_journal_title
         [("journal-title", VNone);
          ("source", VList [VDict crossref_source])]
         [] crossref_source [("value", VStr "Crossref")] [])));
      reflexivity.
  - apply (proj1 (proj2 (proj2
      (journal_prefers_journal_title
         [("source", VList [VDict [("source-orcid", VNone)]])]
         [] [("source-orcid", VNone)] [] []))));
      reflexivity.
  - apply (proj2 (proj2 (proj2
      (journal_prefers_journal_title
         [("journal-title", VNone)] [] [] [] []))));
      reflexivity.
Defined.

(** A doi after an [eid] and a [DOI] and before a value that is not even
    a dict; no doi among the entries; no entries. *)
Lemma doi_is_the_first_exact_match_witness :
  doi_of
    (VDict [("external-ids",
             VDict [("external-id",
                     VList (map VDict ids_before_doi
                              ++ VDict (external_id (VStr "doi")
                                          (VStr "10.1/xyz"))
                              :: ids_after_doi)%list)])])
  = Ok (VStr "10.1/xyz")
  /\ doi_of
       (VDict [("external-ids",
                VDict [("external-id", VList (map VDict ids_before_doi))])])
     = Ok (VStr "N/A")
  /\ doi_of (VDict []) = Ok (VStr "N/A")
  /\ doi_of (VDict [("external-ids", VDict [("put-code", VNone)])])
     = Ok (VStr "N/A").
Proof.
  split; [| split; [| split]].
  - apply (proj1
      (doi_is_the_first_exact_match
         [("external-ids",
           VDict [("external-id",
                   VList (map VDict ids_before_doi
                            ++ VDict (external_id (VStr "doi")
                                        (VStr "10.1/xyz"))
                            :: ids_after_doi)%list)])]
         [("external-id",
           VList (map VDict ids_before_doi
                    ++ VDict (external_id (VStr "doi") (VStr "10.1/xyz"))
                    :: ids_after_doi)%list)]
         ids_before_doi
         (external_id (VStr "doi") (VStr "10.1/xyz"))
         ids_after_doi));
      try reflexivity.
    repeat constructor.
  - apply (proj1 (proj2
      (doi_is_the_first_exact_match
         [("external-ids",
           VDict [("external-id", VList (map VDict ids_before_doi))])]
         [("external-id", VList (map VDict ids_before_doi))]
         ids_before_doi [] [])));
      try reflexivity.
    repeat constructor.
  - apply (proj1 (proj2 (proj2
      (doi_is_the_first_exact_match [] [] [] [] [])))).
    reflexivity.
  - apply (proj2 (proj2 (proj2 (proj2
      (doi_is_the_first_exact_match
         [("external-ids", VDict [("put-code", VNone)])]
         [("put-code", VNone)] [] [] []))))); reflexivity.
Defined.

(** An empty identifier, an empty cell read as [nan], and [NULL] between
    spaces. *)
Lemma C6_skip_witness :
  rows_loop (world_of None None [] VNone) (1 # 2) ["Name"; "ORCID"]
    [[VStr "Bob"; VStr ""]; [VStr "Eve"; VFloat "nan"];
     [VStr "Dan"; VStr " NULL "]] []
  = ([PrintSkip "Bob"; PrintSkip "Eve"; PrintSkip "Dan"], Ok []).
Proof.
  rewrite (C6_invalid_identifier_is_skipped
             (world_of None None [] VNone) (1 # 2) ["Name"; "ORCID"]
             [VStr "Bob"; VStr ""] _ [] (VStr "Bob") (VStr "")
             eq_refl eq_refl (or_introl eq_refl)).
  rewrite (C6_invalid_identifier_is_skipped
             (world_of None None [] VNone) (1 # 2) ["Name"; "ORCID"]
             [VStr "Eve"; VFloat "nan"] _ [] (VStr "Eve") (VFloat "nan")
             eq_refl eq_refl (or_intror (or_introl eq_refl))).
  rewrite (C6_invalid_identifier_is_skipped
             (world_of None None [] VNone) (1 # 2) ["Name"; "ORCID"]
             [VStr "Dan"; VStr " NULL "] _ [] (VStr "Dan") (VStr " NULL ")
             eq_refl eq_refl
             (or_intror (or_intror (or_intror (or_introl eq_refl))))).
  reflexivity.
Defined.

(** One row without identifier and one whose request fails. *)
Lemma C7_nothing_to_export_witness :
  fetch_orcid_works_from_excel
    (world_of (Some "in.xlsx") (Some "out.xlsx")
       [[VStr "Bob"; VStr ""]; [VStr "Zed"; VStr "0000-0002"]] VNone)
    "a.xlsx" "b.xlsx" (1 # 2)
  = ([ReadExcel "in.xlsx";
      PrintSkip "Bob";
      PrintGetting "Zed" "0000-0002";
      HttpGet (works_url "0000-0002");
      PrintFail "0000-0002";
      PrintFound 0;
      Sleep (1 # 2);
      PrintNoWorks], Ok tt).
Proof.
  apply (proj1 (proj2
    (C7_empty_accumulator_writes_nothing
       (world_of (Some "in.xlsx") (Some "out.xlsx")
          [[VStr "Bob"; VStr ""]; [VStr "Zed"; VStr "0000-0002"]] VNone)
       "a.xlsx" "b.xlsx" "in.xlsx" (1 # 2)
       (Frame ["Name"; "ORCID"]
          [[VStr "Bob"; VStr ""]; [VStr "Zed"; VStr "0000-0002"]])
       [PrintSkip "Bob";
        PrintGetting "Zed" "0000-0002";
        HttpGet (works_url "0000-0002");
        PrintFail "0000-0002";
        PrintFound 0;
        Sleep (1 # 2)]
       eq_refl eq_refl eq_refl eq_refl eq_refl))).
Defined.

(** [input_file] unbound; [output_file] unbound with one work to write;
    a file that cannot be read. *)
Lemma C8_globals_witness :
  fetch_orcid_works_from_excel
    (world_of None (Some "out.xlsx") [[VStr "Alice"; VStr alice_id]]
       (doc_of_summaries [summary_paper_a]))
    "a.xlsx" "b.xlsx" (1 # 2)
  = ([PrintCannotRead], Ok tt)
  /\ fetch_orcid_works_from_excel
       (world_of (Some "in.xlsx") None [[VStr "Alice"; VStr alice_id]]
          (doc_of_summaries [summary_paper_a]))
       "a.xlsx" "b.xlsx" (1 # 2)
     = ([ReadExcel "in.xlsx";
         PrintGetting "Alice" alice_id;
         HttpGet (works_url alice_id);
         PrintFound 1;
         Sleep (1 # 2)], Raise NameError)
  /\ fetch_orcid_works_from_excel
       (World (Some "in.xlsx") None (fun _ => None) (endpoint_alice VNone)
          pause_returns column_kept write_succeeds)
       "a.xlsx" "b.xlsx" (1 # 2)
     = ([ReadExcel "in.xlsx"; PrintCannotRead], Ok tt).
Proof.
  split; [| split].
  - apply (proj1 (proj2
      (C8_parameters_ignored_globals_read
         (world_of None (Some "out.xlsx") [[VStr "Alice"; VStr alice_id]]
            (doc_of_summaries [summary_paper_a]))
         "a.xlsx" "b.xlsx" "c.xlsx" "d.xlsx" (1 # 2)))).
    reflexivity.
  - apply (proj1
      (proj2 (proj2 (proj2
         (C8_parameters_ignored_globals_read
            (world_of (Some "in.xlsx") None [[VStr "Alice"; VStr alice_id]]
               (doc_of_summaries [summary_paper_a]))
            "a.xlsx" "b.xlsx" "c.xlsx" "d.xlsx" (1 # 2))))
         "in.xlsx"
         (Frame ["Name"; "ORCID"] [[VStr "Alice"; VStr alice_id]])
         [PrintGetting "Alice" alice_id;
          HttpGet (works_url alice_id);
          PrintFound 1;
          Sleep (1 # 2)]
         (tag "Alice" alice_id
            (mk_work (VStr "Paper A") (VStr "2021-01-01") (VStr "Conf X")
               (VStr "10.1/xyz")))
         []
         eq_refl eq_refl eq_refl eq_refl eq_refl eq_refl)).
  - apply (proj1 (proj2 (proj2
      (C8_parameters_ignored_globals_read
         (World (Some "in.xlsx") None (fun _ => None) (endpoint_alice VNone)
          pause_returns column_kept write_succeeds)
         "a.xlsx" "b.xlsx" "c.xlsx" "d.xlsx" (1 # 2))))
      "in.xlsx" eq_refl eq_refl).
Defined.


(* ================================================================= *)
(** ** Further results: the extractor *)

(** X1. The title is read along [title.title.value]: a missing link at any
    of the three steps gives ["N/A"]; a link that is there but is not a
    dict (null, text, a number, a list) raises [AttributeError]. *)
Theorem title_follows_the_path
  (ws t inner : list (string * value)) (v : value) :
  (Py.lookup "title" ws = None -> title_of (VDict ws) = Ok Py.NA)
  /\ (Py.lookup "title" ws = Some (VDict t) ->
      Py.lookup "title" t = None ->
      title_of (VDict ws) = Ok Py.NA)
  /\ (Py.lookup "title" ws = Some (VDict t) ->
      Py.lookup "title" t = Some (VDict inner) ->
      title_of (VDict ws) = Ok (field_or_NA "value" inner))
  /\ (Py.lookup "title" ws = Some v -> is_dict v = false ->
      title_of (VDict ws) = Raise AttributeError)
  /\ (Py.lookup "title" ws = Some (VDict t) ->
      Py.lookup "title" t = Some v -> is_dict v = false ->
      title_of (VDict ws) = Raise AttributeError).
Proof.
  unfold title_of. rewrite get_dict. cbn [res_bind].
  split; [| split; [| split; [| split]]].
  - intros ->. reflexivity.
  - intros -> Ht. rewrite get_dict, Ht. reflexivity.
  - intros -> Ht. rewrite get_dict, Ht. reflexivity.
  - intros -> Hv. destruct v; try reflexivity. discriminate.
  - intros -> Ht Hv. rewrite get_dict, Ht. cbn [res_bind].
    destruct v; try reflexivity. discriminate.
Qed.

Lemma title_follows_the_path_witness :
  title_of (VDict []) = Ok (VStr "N/A")
  /\ title_of (VDict [("title", VDict [("subtitle", VNone)])])
     = Ok (VStr "N/A")
  /\ title_of (VDict [("title", VDict [("title", valued (VStr "Paper A"))])])
     = Ok (VStr "Paper A")
  /\ title_of (VDict [("title", VStr "Paper A")]) = Raise AttributeError
  /\ title_of (VDict [("title", VDict [("title", VNone)])])
     = Raise AttributeError.
Proof.
  split; [| split; [| split; [| split]]].
  - apply (proj1 (title_follows_the_path [] [] [] VNone)). reflexivity.
  - apply (proj1 (proj2
      (title_follows_the_path [("title", VDict [("subtitle", VNone)])]
         [("subtitle", VNone)] [] VNone))); reflexivity.
  - apply (proj1 (proj2 (proj2
      (title_follows_the_path
         [("title", VDict [("title", valued (VStr "Paper A"))])]
         [("title", valued (VStr "Paper A"))]
         [("value", VStr "Paper A")] VNone)))); reflexivity.
  - apply (proj1 (proj2 (proj2 (proj2
      (title_follows_the_path [("title", VStr "Paper A")] [] []
         (VStr "Paper A")))))); reflexivity.
  - apply (proj2 (proj2 (proj2 (proj2
      (title_follows_the_path [("title", VDict [("title", VNone)])]
         [("title", VNone)] [] VNone))))); reflexivity.
Defined.

(** X2. Of the summaries of a group only the first is read: two groups
    whose [work-summary] lists start with the same summary give the same
    result, whatever follows it and whatever else the groups hold. *)
Theorem only_the_first_summary_is_read
  (g g' : list (string * value)) (summary : value)
  (others others' : list value) :
  Py.lookup "work-summary" g = Some (VList (summary :: others)) ->
  Py.lookup "work-summary" g' = Some (VList (summary :: others')) ->
  work_of_group (VDict g) = work_of_group (VDict g').
Proof.
  intros Hg Hg'. unfold work_of_group, work_summary_of.
  now rewrite !get_dict, Hg, Hg'.
Qed.

Lemma only_the_first_summary_is_read_witness :
  work_of_group
    (VDict [("work-summary", VList [summary_paper_a; summary_null_leaves])])
  = work_of_group
      (VDict [("last-modified-date", VNone);
              ("work-summary", VList [summary_paper_a; VInt 3; VNone])]).
Proof.
  apply (only_the_first_summary_is_read
           [("work-summary", VList [summary_paper_a; summary_null_leaves])]
           [("last-modified-date", VNone);
            ("work-summary", VList [summary_paper_a; VInt 3; VNone])]
           summary_paper_a [summary_null_leaves] [VInt 3; VNone]);
    reflexivity.
Defined.

Lemma publication_date_shape (ws d : value) :
  publication_date_of ws = Ok d ->
  d = VNone \/ exists text, d = VStr text.
Proof.
  unfold publication_date_of.
  destruct (Py.get ws "publication-date" VNone) as [pd | e];
    cbn [res_bind]; [| discriminate].
  destruct (Py.truthy pd); [| intros [= <-]; now left].
  destruct (date_part pd "year" (VStr "")) as [y | e];
    cbn [res_bind]; [| discriminate].
  destruct (date_part pd "month" (VStr "01")) as [m | e];
    cbn [res_bind]; [| discriminate].
  destruct (date_part pd "day" (VStr "01")) as [dd | e];
    cbn [res_bind]; [| discriminate].
  destruct (Py.truthy y); intros [= <-]; [right; eauto | now left].
Qed.

Lemma work_of_group_record (g : value) (wk : work) :
  work_of_group g = Ok wk -> is_record wk.
Proof.
  unfold work_of_group.
  destruct (work_summary_of g) as [ws | e]; cbn [res_bind]; [| discriminate].
  destruct (title_of ws) as [t | e]; cbn [res_bind]; [| discriminate].
  destruct (publication_date_of ws) as [d | e] eqn:Hd;
    cbn [res_bind]; [| discriminate].
  destruct (journal_title_of ws) as [j | e]; cbn [res_bind]; [| discriminate].
  destruct (doi_of ws) as [x | e]; cbn [res_bind]; [| discriminate].
  intros [= <-]. exists t, d, j, x. split; [reflexivity |].
  exact (publication_date_shape _ _ Hd).
Qed.

Lemma works_loop_ok_iff (groups : list value) :
  forall acc works,
    works_loop groups acc = Ok works
    <-> exists ws,
          Forall2 (fun g wk => work_of_group g = Ok wk) groups ws
          /\ works = (acc ++ ws)%list.
Proof.
  induction groups as [| g groups IH]; intros acc works; cbn [works_loop].
  - split.
    + intros [= <-]. exists []. split; [constructor | now rewrite app_nil_r].
    + intros [ws [Hall ->]]. inversion Hall. now rewrite app_nil_r.
  - destruct (work_of_group g) as [wk | e] eqn:Hg; cbn [res_bind].
    + rewrite IH. split.
      * intros [ws [Hall ->]]. exists (wk :: ws). split.
        -- now constructor.
        -- now rewrite <- app_assoc.
      * intros [ws [Hall ->]]. inversion Hall as [| g0 wk0 gs0 ws0 H0 Hrest];
          subst. rewrite Hg in H0. injection H0 as <-.
        exists ws0. split; [exact Hrest | now rewrite <- app_assoc].
    + split; [discriminate |].
      intros [ws [Hall _]]. inversion Hall as [| g0 wk0 gs0 ws0 H0 Hrest];
        subst. rewrite Hg in H0. discriminate.
Qed.

(** X3. Extraction is the loop body applied to each group in order: the
    document gives a list of records exactly when every group gives its
    record, and the list is then these records, one per group, in the
    order of the groups. *)
Theorem extraction_is_group_by_group
  (d : list (string * value)) (groups : list value) (works : list work) :
  Py.lookup "group" d = Some (VList groups) ->
  works_of_data (VDict d) = Ok works
  <-> Forall2 (fun g wk => work_of_group g = Ok wk) groups works.
Proof.
  intros Hd. unfold works_of_data. rewrite get_dict, Hd.
  cbn [res_bind Py.iter]. rewrite works_loop_ok_iff. cbn [app]. split.
  - intros [ws [Hall ->]]. exact Hall.
  - intros Hall. now exists works.
Qed.

Lemma extraction_is_group_by_group_witness :
  works_of_data
    (VDict [("group",
             VList [VDict [("work-summary", VList [summary_paper_a])];
                    VDict []])])
  = Ok [mk_work (VStr "Paper A") (VStr "2021-01-01") (VStr "Conf X")
          (VStr "10.1/xyz");
        default_work].
Proof.
  apply (proj2
    (extraction_is_group_by_group
       [("group",
         VList [VDict [("work-summary", VList [summary_paper_a])];
                VDict []])]
       [VDict [("work-summary", VList [summary_paper_a])]; VDict []]
       [mk_work (VStr "Paper A") (VStr "2021-01-01") (VStr "Conf X")
          (VStr "10.1/xyz");
        default_work]
       eq_refl)).
  repeat constructor.
Defined.

Lemma works_loop_failure (pre : list value) :
  forall (ws acc : list work) (g : value) (post : list value) (e : exn),
    Forall2 (fun g wk => work_of_group g = Ok wk) pre ws ->
    work_of_group g = Raise e ->
    works_loop (pre ++ g :: post)%list acc = Raise e.
Proof.
  induction pre as [| p pre IH]; intros ws acc g post e Hall Hg.
  - cbn. now rewrite Hg.
  - inversion Hall as [| p0 wk0 ps0 ws0 Hp Hrest]; subst.
    cbn [app works_loop]. rewrite Hp. cbn [res_bind].
    now apply (IH ws0).
Qed.

(** X4. Extraction is all or nothing: when a group raises, the document
    raises the same exception, and the records of the groups before it
    are not returned; the groups after it are not looked at. *)
Theorem one_bad_group_loses_the_document
  (d : list (string * value)) (pre post : list value) (g : value)
  (ws : list work) (e : exn) :
  Py.lookup "group" d = Some (VList (pre ++ g :: post)%list) ->
  Forall2 (fun g wk => work_of_group g = Ok wk) pre ws ->
  work_of_group g = Raise e ->
  works_of_data (VDict d) = Raise e.
Proof.
  intros Hd Hpre Hg. unfold works_of_data. rewrite get_dict, Hd.
  cbn [res_bind Py.iter]. now apply (works_loop_failure pre ws).
Qed.

Lemma one_bad_group_loses_the_document_witness :
  works_of_data
    (VDict [("group",
             VList ([VDict [("work-summary", VList [summary_paper_a])]]
                      ++ VDict [("work-summary", VList [])]
                      :: [VInt 0])%list)])
  = Raise IndexError.
Proof.
  apply (one_bad_group_loses_the_document
           [("group",
             VList ([VDict [("work-summary", VList [summary_paper_a])]]
                      ++ VDict [("work-summary", VList [])]
                      :: [VInt 0])%list)]
           [VDict [("work-summary", VList [summary_paper_a])]]
           [VInt 0]
           (VDict [("work-summary", VList [])])
           [mk_work (VStr "Paper A") (VStr "2021-01-01") (VStr "Conf X")
              (VStr "10.1/xyz")]
           IndexError eq_refl).
  - repeat constructor.
  - reflexivity.
Defined.

(** X5. Every record the extractor returns is a dict with exactly the keys
    [title], [publication_date], [journal] and [doi], in this order, and
    its [publication_date] is null or text, never a number, a list or a
    dict, whatever the document holds. *)
Theorem extracted_records_have_four_fields
  (data : value) (works : list work) :
  works_of_data data = Ok works -> Forall is_record works.
Proof.
  unfold works_of_data.
  destruct (Py.get data "group" (VList [])) as [gv | e];
    cbn [res_bind]; [| discriminate].
  destruct (Py.iter gv) as [groups | e]; cbn [res_bind]; [| discriminate].
  intros Hloop. apply works_loop_ok_iff in Hloop as [ws [Hall ->]].
  cbn [app]. induction Hall as [| g wk gs ws Hg _ IH]; constructor.
  - exact (work_of_group_record _ _ Hg).
  - exact IH.
Qed.

Lemma extracted_records_have_four_fields_witness :
  Forall is_record
    [[("title", VNone); ("publication_date", VNone); ("journal", VNone);
      ("doi", VNone)]].
Proof.
  apply (extracted_records_have_four_fields
           (doc_of_summaries [summary_null_leaves])).
  reflexivity.
Defined.

Lemma title_total (ws : list (string * value)) :
  title_ok ws = true -> exists v, title_of (VDict ws) = Ok v.
Proof.
  unfold title_ok, title_of. rewrite get_dict.
  destruct (Py.lookup "title" ws) as [v |]; cbn [res_bind].
  - destruct v as [| b | n | r | s | xs | t]; try discriminate.
    unfold absent_or_dict. rewrite get_dict.
    destruct (Py.lookup "title" t) as [i |]; cbn [res_bind].
    + destruct i; try discriminate. intros _. rewrite get_dict. eauto.
    + intros _. cbn. eauto.
  - intros _. cbn. eauto.
Qed.

Lemma publication_date_of_dict (ws pd : list (string * value)) :
  Py.lookup "publication-date" ws = Some (VDict pd) ->
  date_ok pd = true ->
  exists v, publication_date_of (VDict ws) = Ok v.
Proof.
  intros Hpd Hok. unfold date_ok in Hok.
  apply andb_true_iff in Hok as [Hok Hd].
  apply andb_true_iff in Hok as [Hy Hm].
  unfold publication_date_of. rewrite get_dict, Hpd. cbn [res_bind].
  destruct (Py.truthy (VDict pd)); [| eauto].
  rewrite (date_part_value _ _ _ Hy), (date_part_value _ _ _ Hm),
    (date_part_value _ _ _ Hd). cbn [res_bind].
  destruct (Py.truthy _); eauto.
Qed.

Lemma publication_date_total (ws : list (string * value)) :
  pub_date_ok ws = true -> exists v, publication_date_of (VDict ws) = Ok v.
Proof.
  unfold pub_date_ok.
  destruct (Py.lookup "publication-date" ws) as [v |] eqn:Hv.
  - destruct v as [| b | n | r | s | xs | pd];
      try (intros Hf; apply negb_true_iff in Hf;
           unfold publication_date_of; rewrite get_dict, Hv;
           cbn [res_bind]; rewrite Hf; eauto).
    intros Hok. exact (publication_date_of_dict _ _ Hv Hok).
  - intros _. unfold publication_date_of. rewrite get_dict, Hv. cbn. eauto.
Qed.

Lemma journal_via_source_total (ws : list (string * value)) :
  absent_or_empty "journal-title" ws = true ->
  source_ok ws = true ->
  exists v, journal_title_of (VDict ws) = Ok v.
Proof.
  intros Habs. rewrite (journal_from_source _ Habs), get_dict.
  unfold source_ok.
  destruct (Py.lookup "source" ws) as [v |]; cbn [res_bind]; [| cbn; eauto].
  destruct v as [| b | n | r | s | xs | items];
    try (intros Hf; apply negb_true_iff in Hf; rewrite Hf; eauto).
  destruct xs as [| x xs]; [cbn; eauto |].
  destruct x as [| b | n | r | s | ys | src]; try discriminate.
  cbn [Py.truthy res_bind Py.item0 Py.contains Py.item].
  unfold absent_or_dict, Py.has_key.
  destruct (Py.lookup "source-name" src) as [sn |]; cbn [res_bind].
  - destruct sn; try discriminate. intros _. rewrite get_dict. eauto.
  - eauto.
Qed.

Lemma journal_total (ws : list (string * value)) :
  journal_ok ws = true -> exists v, journal_title_of (VDict ws) = Ok v.
Proof.
  unfold journal_ok.
  destruct (Py.lookup "journal-title" ws) as [v |] eqn:Hv.
  - assert (Hfalsy : negb (Py.truthy v) && source_ok ws = true ->
                     exists j, journal_title_of (VDict ws) = Ok j).
    { intros H. apply andb_true_iff in H as [Hf Hs].
      apply journal_via_source_total; [| exact Hs].
      unfold absent_or_empty. now rewrite Hv. }
    destruct v as [| b | n | r | s | xs | jt]; try exact Hfalsy.
    destruct jt as [| kv jt]; [exact Hfalsy |].
    intros _. rewrite (journal_from_title _ _ Hv); [eauto | discriminate].
  - intros Hs. apply journal_via_source_total; [| exact Hs].
    unfold absent_or_empty. now rewrite Hv.
Qed.

Lemma doi_scan_total (entries : list value) :
  forallb is_dict entries = true -> exists v, doi_scan entries = Ok v.
Proof.
  induction entries as [| e entries IH]; cbn [forallb doi_scan]; [eauto |].
  intros H. apply andb_true_iff in H as [He Hrest].
  destruct e; try discriminate. rewrite get_dict. cbn [res_bind].
  destruct (Py.eq_str _ "doi"); [rewrite get_dict; eauto | auto].
Qed.

Lemma doi_total (ws : list (string * value)) :
  ids_ok ws = true -> exists v, doi_of (VDict ws) = Ok v.
Proof.
  unfold ids_ok, doi_of. rewrite get_dict.
  destruct (Py.lookup "external-ids" ws) as [v |]; cbn [res_bind];
    [| cbn; eauto].
  destruct v as [| b | n | r | s | xs | ids]; try discriminate.
  rewrite get_dict.
  destruct (Py.lookup "external-id" ids) as [v |]; cbn [res_bind];
    [| cbn; eauto].
  destruct v as [| b | n | r | s | entries | items]; try discriminate.
  cbn [Py.iter res_bind]. apply doi_scan_total.
Qed.

Lemma group_total (g : list (string * value)) :
  group_ok g = true -> exists wk, work_of_group (VDict g) = Ok wk.
Proof.
  unfold group_ok.
  destruct (Py.lookup "work-summary" g) as [v |] eqn:Hg.
  - destruct v as [| b | n | r | s | xs | items]; try discriminate.
    destruct xs as [| x xs]; try discriminate.
    destruct x as [| b | n | r | s | ys | ws]; try discriminate.
    unfold summary_ok. intros H.
    apply andb_true_iff in H as [H Hi].
    apply andb_true_iff in H as [H Hj].
    apply andb_true_iff in H as [Ht Hd].
    destruct (title_total _ Ht) as [t Et].
    destruct (publication_date_total _ Hd) as [d Ed].
    destruct (journal_total _ Hj) as [j Ej].
    destruct (doi_total _ Hi) as [x Ex].
    unfold work_of_group, work_summary_of. rewrite get_dict, Hg.
    cbn [res_bind Py.item0]. rewrite Et, Ed, Ej, Ex. cbn. eauto.
  - intros _. rewrite (work_of_group_default _ Hg). eauto.
Qed.

(** X6. Extraction does not raise on a document of the shape the loop
    guards: every group has no [work-summary] or a list starting with a
    dict in which [title] and its inner [title] are missing or dicts;
    [publication-date] is missing, null or a dict whose parts are missing,
    null or dicts; [journal-title] is a non-empty dict, or it is missing or
    null and [source] is missing, null, empty or starts with a dict whose
    [source-name] is missing or a dict; [external-ids] is missing or a dict
    whose [external-id] is missing or a list of dicts. It then returns one
    record per group. *)
Theorem guarded_shape_extracts
  (d : list (string * value)) (gs : list (list (string * value))) :
  Py.lookup "group" d = Some (VList (map VDict gs)) ->
  forallb group_ok gs = true ->
  exists works,
    works_of_data (VDict d) = Ok works
    /\ List.length works = List.length gs.
Proof.
  intros Hd Hok.
  assert (Hws : exists ws,
            Forall2 (fun g wk => work_of_group g = Ok wk) (map VDict gs) ws).
  { clear Hd. induction gs as [| g gs IH]; [exists []; constructor |].
    cbn [forallb] in Hok. apply andb_true_iff in Hok as [Hg Hrest].
    destruct (group_total _ Hg) as [wk Hwk].
    destruct (IH Hrest) as [ws Hall].
    exists (wk :: ws). now constructor. }
  clear Hok. destruct Hws as [ws Hall]. exists ws. split.
  - unfold works_of_data. rewrite get_dict, Hd. cbn [res_bind Py.iter].
    apply works_loop_ok_iff. now exists ws.
  - apply Forall2_length in Hall. now rewrite length_map in Hall.
Qed.

Lemma guarded_shape_extracts_witness :
  exists works,
    works_of_data
      (VDict [("group", VList (map VDict
                 [[("work-summary", VList [summary_paper_a; VNone])];
                  [("work-summary", VList [summary_null_leaves])];
                  []]))])
    = Ok works
    /\ List.length works = 3.
Proof.
  apply (guarded_shape_extracts
           [("group", VList (map VDict
               [[("work-summary", VList [summary_paper_a; VNone])];
                [("work-summary", VList [summary_null_leaves])];
                []]))]
           [[("work-summary", VList [summary_paper_a; VNone])];
            [("work-summary", VList [summary_null_leaves])];
            []]);
    reflexivity.
Defined.

Lemma get_orcid_works_by_response (w : world) (orcid_id : string) :
  get_orcid_works w orcid_id
  = match http_get w (works_url orcid_id) with
    | RequestFailed =>
        ([HttpGet (works_url orcid_id); PrintFail orcid_id], Ok [])
    | NotJson => ([HttpGet (works_url orcid_id)], Raise JSONDecodeError)
    | Json data => ([HttpGet (works_url orcid_id)], works_of_data data)
    end.
Proof.
  unfold get_orcid_works. rewrite eff_bind_emit.
  destruct (http_get w (works_url orcid_id)); reflexivity.
Qed.

(** X7. Only a failed request is caught. A request that fails gives the
    failure notice and no works. A body that is not JSON raises
    [JSONDecodeError]; a JSON body that is not an object raises
    [AttributeError]; an object whose [group] is null, a number or a
    boolean raises [TypeError]: each after the one request, with no
    notice. The request goes to the base URL, the identifier and
    [/works]. *)
Theorem get_orcid_works_catches_only_the_request
  (w : world) (orcid_id : string) (data v : value)
  (d : list (string * value)) :
  works_url orcid_id
  = "https://pub.orcid.org/v3.0/" ++ orcid_id ++ "/works"
  /\ (http_get w (works_url orcid_id) = RequestFailed ->
      get_orcid_works w orcid_id
      = ([HttpGet (works_url orcid_id); PrintFail orcid_id], Ok []))
  /\ (http_get w (works_url orcid_id) = NotJson ->
      get_orcid_works w orcid_id
      = ([HttpGet (works_url orcid_id)], Raise JSONDecodeError))
  /\ (http_get w (works_url orcid_id) = Json data ->
      is_dict data = false ->
      get_orcid_works w orcid_id
      = ([HttpGet (works_url orcid_id)], Raise AttributeError))
  /\ (http_get w (works_url orcid_id) = Json (VDict d) ->
      Py.lookup "group" d = Some v ->
      match v with
      | VList _ | VStr _ | VDict _ => False
      | _ => True
      end ->
      get_orcid_works w orcid_id
      = ([HttpGet (works_url orcid_id)], Raise TypeError)).
Proof.
  rewrite get_orcid_works_by_response.
  split; [reflexivity | split; [| split; [| split]]].
  - now intros ->.
  - now intros ->.
  - intros -> Hd. destruct data; try reflexivity. discriminate.
  - intros -> Hg Hv. unfold works_of_data. rewrite get_dict, Hg.
    destruct v; try reflexivity; contradiction.
Qed.

Lemma get_orcid_works_catches_only_the_request_witness :
  get_orcid_works (world_of None None [] VNone) "0000-0002"
  = ([HttpGet "https://pub.orcid.org/v3.0/0000-0002/works";
      PrintFail "0000-0002"], Ok [])
  /\ get_orcid_works (World None None (roster []) (fun _ => NotJson)
          pause_returns column_kept write_succeeds) alice_id
     = ([HttpGet (works_url alice_id)], Raise JSONDecodeError)
  /\ get_orcid_works (world_of None None [] (VList [])) alice_id
     = ([HttpGet (works_url alice_id)], Raise AttributeError)
  /\ get_orcid_works (world_of None None [] (VDict [("group", VNone)]))
       alice_id
     = ([HttpGet (works_url alice_id)], Raise TypeError).
Proof.
  split; [| split; [| split]].
  - apply (proj1 (proj2
      (get_orcid_works_catches_only_the_request
         (world_of None None [] VNone) "0000-0002" VNone VNone []))).
    reflexivity.
  - apply (proj1 (proj2 (proj2
      (get_orcid_works_catches_only_the_request
         (World None None (roster []) (fun _ => NotJson)
          pause_returns column_kept write_succeeds) alice_id
         VNone VNone [])))).
    reflexivity.
  - apply (proj1 (proj2 (proj2 (proj2
      (get_orcid_works_catches_only_the_request
         (world_of None None [] (VList [])) alice_id
         (VList []) VNone []))))); reflexivity.
  - apply (proj2 (proj2 (proj2 (proj2
      (get_orcid_works_catches_only_the_request
         (world_of None None [] (VDict [("group", VNone)])) alice_id
         VNone VNone [("group", VNone)]))))
      eq_refl eq_refl I).
Defined.

(* ================================================================= *)
(** ** Further results: the orchestrator *)

Lemma eff_bind_ok {A B : Type} (evs : list event) (a : A) (k : A -> eff B) :
  eff_bind (evs, Ok a) k = ((evs ++ fst (k a))%list, snd (k a)).
Proof. unfold eff_bind. now destruct (k a). Qed.

Lemma eff_bind_assoc {A B C : Type} (m : eff A) (f : A -> eff B)
  (g : B -> eff C) :
  eff_bind (eff_bind m f) g = eff_bind m (fun a => eff_bind (f a) g).
Proof.
  destruct m as [evs [a | e]]; [| reflexivity].
  cbn [eff_bind]. destruct (f a) as [evs1 [b | e]]; cbn [eff_bind].
  - destruct (g b) as [evs2 r]. now rewrite app_assoc.
  - reflexivity.
Qed.

Lemma eff_bind_ext {A B : Type} (m : eff A) (f g : A -> eff B) :
  (forall a, f a = g a) -> eff_bind m f = eff_bind m g.
Proof.
  intros H. destruct m as [evs [a | e]]; [| reflexivity].
  cbn [eff_bind]. now rewrite H.
Qed.

Lemma rows_loop_cons (w : world) (sleep_time : Q) (labels : list string)
  (row : list value) (rest : list (list value)) (acc : list work) :
  rows_loop w sleep_time labels (row :: rest) acc
  = eff_bind (rows_loop w sleep_time labels [row] acc)
      (rows_loop w sleep_time labels rest).
Proof.
  cbn [rows_loop].
  rewrite eff_bind_assoc. apply eff_bind_ext. intros nc.
  rewrite eff_bind_assoc. apply eff_bind_ext. intros oc.
  destruct (invalid_orcid (stripped oc)).
  - rewrite eff_bind_assoc. apply eff_bind_ext. intros _.
    symmetry. apply (eff_bind_lift_ok acc).
  - rewrite eff_bind_assoc. apply eff_bind_ext. intros _.
    rewrite eff_bind_assoc. apply eff_bind_ext. intros works.
    rewrite eff_bind_assoc. apply eff_bind_ext. intros _.
    rewrite eff_bind_assoc. apply eff_bind_ext. intros _.
    symmetry.
    apply (eff_bind_lift_ok
             (acc ++ map (tag (stripped nc) (stripped oc)) works)%list).
Qed.

Lemma rows_loop_app (w : world) (sleep_time : Q) (labels : list string)
  (first : list (list value)) :
  forall (second : list (list value)) (acc : list work),
    rows_loop w sleep_time labels (first ++ second)%list acc
    = eff_bind (rows_loop w sleep_time labels first acc)
        (rows_loop w sleep_time labels second).
Proof.
  induction first as [| row first IH]; intros second acc.
  - symmetry. apply (eff_bind_lift_ok acc).
  - cbn [app]. rewrite rows_loop_cons, (rows_loop_cons _ _ _ row first).
    rewrite eff_bind_assoc. apply eff_bind_ext. intros acc'. apply IH.
Qed.

Lemma rows_loop_valid_ok (w : world) (sleep_time : Q) (labels : list string)
  (row : list value) (rest : list (list value)) (acc : list work)
  (nc oc : value) (evs : list event) (works : list work) :
  cell labels row "Name" = Ok nc ->
  cell labels row "ORCID" = Ok oc ->
  invalid_orcid (stripped oc) = false ->
  get_orcid_works w (stripped oc) = (evs, Ok works) ->
  time_sleep w sleep_time = None ->
  let acc' := (acc ++ map (tag (stripped nc) (stripped oc)) works)%list in
  rows_loop w sleep_time labels (row :: rest) acc
  = ((PrintGetting (stripped nc) (stripped oc) :: evs)
       ++ PrintFound (List.length works) :: Sleep sleep_time
       :: fst (rows_loop w sleep_time labels rest acc'),
     snd (rows_loop w sleep_time labels rest acc'))%list.
Proof.
  intros Hn Ho Hv Hget Hq acc'.
  rewrite (rows_loop_fetch _ _ _ _ _ _ _ _ Hn Ho Hv).
  rewrite eff_bind_emit, Hget, eff_bind_ok. cbn zeta.
  rewrite eff_bind_emit. unfold sleep. rewrite Hq, eff_bind_emit.
  cbn [fst snd]. now rewrite length_map.
Qed.

Lemma rows_loop_valid_raise (w : world) (sleep_time : Q)
  (labels : list string) (row : list value) (rest : list (list value))
  (acc : list work) (nc oc : value) (evs : list event) (e : exn) :
  cell labels row "Name" = Ok nc ->
  cell labels row "ORCID" = Ok oc ->
  invalid_orcid (stripped oc) = false ->
  get_orcid_works w (stripped oc) = (evs, Raise e) ->
  rows_loop w sleep_time labels (row :: rest) acc
  = (PrintGetting (stripped nc) (stripped oc) :: evs, Raise e).
Proof.
  intros Hn Ho Hv Hget.
  rewrite (rows_loop_fetch _ _ _ _ _ _ _ _ Hn Ho Hv).
  now rewrite eff_bind_emit, Hget.
Qed.

Lemma rows_loop_valid_pause_raises (w : world) (sleep_time : Q)
  (labels : list string) (row : list value) (rest : list (list value))
  (acc : list work) (nc oc : value) (evs : list event) (works : list work)
  (e : exn) :
  cell labels row "Name" = Ok nc ->
  cell labels row "ORCID" = Ok oc ->
  invalid_orcid (stripped oc) = false ->
  get_orcid_works w (stripped oc) = (evs, Ok works) ->
  time_sleep w sleep_time = Some e ->
  rows_loop w sleep_time labels (row :: rest) acc
  = ((PrintGetting (stripped nc) (stripped oc) :: evs)
       ++ [PrintFound (List.length works)], Raise e)%list.
Proof.
  intros Hn Ho Hv Hget Hq.
  rewrite (rows_loop_fetch _ _ _ _ _ _ _ _ Hn Ho Hv).
  rewrite eff_bind_emit, Hget, eff_bind_ok. cbn zeta.
  rewrite eff_bind_emit. unfold sleep. rewrite Hq.
  cbn [fst snd eff_bind lift]. now rewrite length_map.
Qed.

(** X8. A request that fails does not stop the batch: when the pause
    returns, the row prints its notices, pauses, adds no record, and the
    loop goes on with the next row and the same accumulator. *)
Theorem failed_request_row_adds_nothing
  (w : world) (sleep_time : Q) (labels : list string)
  (row : list value) (rest : list (list value)) (acc : list work)
  (nc oc : value) :
  cell labels row "Name" = Ok nc ->
  cell labels row "ORCID" = Ok oc ->
  invalid_orcid (stripped oc) = false ->
  http_get w (works_url (stripped oc)) = RequestFailed ->
  time_sleep w sleep_time = None ->
  rows_loop w sleep_time labels (row :: rest) acc
  = (PrintGetting (stripped nc) (stripped oc)
       :: HttpGet (works_url (stripped oc))
       :: PrintFail (stripped oc)
       :: PrintFound 0
       :: Sleep sleep_time
       :: fst (rows_loop w sleep_time labels rest acc),
     snd (rows_loop w sleep_time labels rest acc)).
Proof.
  intros Hn Ho Hv Hfail Hq.
  assert (Hget : get_orcid_works w (stripped oc)
                 = ([HttpGet (works_url (stripped oc));
                     PrintFail (stripped oc)], Ok [])).
  { now rewrite get_orcid_works_by_response, Hfail. }
  rewrite (rows_loop_valid_ok _ _ _ _ _ _ _ _ _ _ Hn Ho Hv Hget Hq).
  cbn [map List.length app]. now rewrite app_nil_r.
Qed.

Lemma failed_request_row_adds_nothing_witness :
  rows_loop (world_of None None [] VNone) (1 # 2) ["Name"; "ORCID"]
    [[VStr "Zed"; VStr "0000-0002"]; [VStr "Bob"; VStr ""]] []
  = ([PrintGetting "Zed" "0000-0002";
      HttpGet (works_url "0000-0002");
      PrintFail "0000-0002";
      PrintFound 0;
      Sleep (1 # 2);
      PrintSkip "Bob"], Ok []).
Proof.
  rewrite (failed_request_row_adds_nothing
             (world_of None None [] VNone) (1 # 2) ["Name"; "ORCID"]
             [VStr "Zed"; VStr "0000-0002"] [[VStr "Bob"; VStr ""]] []
             (VStr "Zed") (VStr "0000-0002")
             eq_refl eq_refl eq_refl eq_refl eq_refl).
  reflexivity.
Defined.

(** X9. An exception of the extractor is not caught by the orchestrator:
    when the rows before a row leave an accumulator and the document
    fetched for that row makes extraction raise, the whole run raises the
    same exception right after the request. The accumulated records are
    lost, the rows after it are not processed and nothing is written,
    whatever [output_file] is. *)
Theorem extraction_error_aborts_the_run
  (w : world) (input_excel output_excel path : string) (sleep_time : Q)
  (df : frame) (before after : list (list value)) (row : list value)
  (evs : list event) (acc : list work) (nc oc data : value) (e : exn) :
  input_file w = Some path ->
  read_excel w path = Some df ->
  Py.among "Name" (columns df) = true ->
  Py.among "ORCID" (columns df) = true ->
  rows df = (before ++ row :: after)%list ->
  rows_loop w sleep_time (columns df) before [] = (evs, Ok acc) ->
  cell (columns df) row "Name" = Ok nc ->
  cell (columns df) row "ORCID" = Ok oc ->
  invalid_orcid (stripped oc) = false ->
  http_get w (works_url (stripped oc)) = Json data ->
  works_of_data data = Raise e ->
  fetch_orcid_works_from_excel w input_excel output_excel sleep_time
  = (ReadExcel path
       :: evs ++ [PrintGetting (stripped nc) (stripped oc);
                  HttpGet (works_url (stripped oc))],
     Raise e)%list
  /\ existsb is_write
       (fst (fetch_orcid_works_from_excel w input_excel output_excel
               sleep_time)) = false.
Proof.
  intros Hin Hread Hname Horcid Hrows Hbefore Hn Ho Hv Hjson Hraise.
  assert (Hget : get_orcid_works w (stripped oc)
                 = ([HttpGet (works_url (stripped oc))], Raise e)).
  { now rewrite get_orcid_works_by_response, Hjson, Hraise. }
  assert (Hrun : fetch_orcid_works_from_excel w input_excel output_excel
                   sleep_time
                 = (ReadExcel path
                      :: evs ++ [PrintGetting (stripped nc) (stripped oc);
                                 HttpGet (works_url (stripped oc))],
                    Raise e)%list).
  { rewrite (run_to_export _ _ _ _ _ _ Hin Hread Hname Horcid).
    rewrite eff_bind_emit, Hrows, rows_loop_app, Hbefore, eff_bind_ok.
    rewrite (rows_loop_valid_raise _ _ _ _ _ _ _ _ _ _ Hn Ho Hv Hget).
    reflexivity. }
  split; [exact Hrun |].
  rewrite Hrun. cbn [fst existsb is_write orb].
  rewrite existsb_app. cbn [existsb is_write orb].
  pose proof (rows_loop_no_write w sleep_time (columns df) before []) as Hq.
  rewrite Hbefore in Hq. cbn [fst] in Hq. now rewrite Hq.
Qed.

Lemma extraction_error_aborts_the_run_witness :
  fetch_orcid_works_from_excel
    (World (Some "in.xlsx") (Some "out.xlsx")
       (roster [[VStr "Zed"; VStr "0000-0002"];
                [VStr "Alice"; VStr alice_id];
                [VStr "Bob"; VStr ""]])
       (endpoint_alice doc_empty_summaries)
       pause_returns column_kept write_succeeds)
    "a.xlsx" "b.xlsx" (1 # 2)
  = ([ReadExcel "in.xlsx";
      PrintGetting "Zed" "0000-0002";
      HttpGet (works_url "0000-0002");
      PrintFail "0000-0002";
      PrintFound 0;
      Sleep (1 # 2);
      PrintGetting "Alice" alice_id;
      HttpGet (works_url alice_id)], Raise IndexError).
Proof.
  apply (proj1
    (extraction_error_aborts_the_run
       (World (Some "in.xlsx") (Some "out.xlsx")
          (roster [[VStr "Zed"; VStr "0000-0002"];
                   [VStr "Alice"; VStr alice_id];
                   [VStr "Bob"; VStr ""]])
          (endpoint_alice doc_empty_summaries)
          pause_returns column_kept write_succeeds)
       "a.xlsx" "b.xlsx" "in.xlsx" (1 # 2)
       (Frame ["Name"; "ORCID"]
          [[VStr "Zed"; VStr "0000-0002"];
           [VStr "Alice"; VStr alice_id];
           [VStr "Bob"; VStr ""]])
       [[VStr "Zed"; VStr "0000-0002"]] [[VStr "Bob"; VStr ""]]
       [VStr "Alice"; VStr alice_id]
       [PrintGetting "Zed" "0000-0002";
        HttpGet (works_url "0000-0002");
        PrintFail "0000-0002";
        PrintFound 0;
        Sleep (1 # 2)]
       [] (VStr "Alice") (VStr alice_id) doc_empty_summaries IndexError
       eq_refl eq_refl eq_refl eq_refl eq_refl eq_refl eq_refl eq_refl
       eq_refl eq_refl eq_refl)).
Defined.

(** X10. An exception of [time.sleep] is not caught: when the rows before
    a row leave an accumulator, the row is fetched and its pause raises
    (as for a negative delay, or one too large for the clock), the run
    raises the same exception right after the request and the count of
    works found; the rows after it are not processed and nothing is
    written. *)
Theorem a_raising_pause_ends_the_run
  (w : world) (input_excel output_excel path : string) (sleep_time : Q)
  (df : frame) (before after : list (list value)) (row : list value)
  (evs0 evs : list event) (acc works : list work) (nc oc : value)
  (e : exn) :
  input_file w = Some path ->
  read_excel w path = Some df ->
  Py.among "Name" (columns df) = true ->
  Py.among "ORCID" (columns df) = true ->
  rows df = (before ++ row :: after)%list ->
  rows_loop w sleep_time (columns df) before [] = (evs0, Ok acc) ->
  cell (columns df) row "Name" = Ok nc ->
  cell (columns df) row "ORCID" = Ok oc ->
  invalid_orcid (stripped oc) = false ->
  get_orcid_works w (stripped oc) = (evs, Ok works) ->
  time_sleep w sleep_time = Some e ->
  fetch_orcid_works_from_excel w input_excel output_excel sleep_time
  = (ReadExcel path
       :: evs0
       ++ (PrintGetting (stripped nc) (stripped oc) :: evs)
       ++ [PrintFound (List.length works)],
     Raise e)%list
  /\ existsb is_write
       (fst (fetch_orcid_works_from_excel w input_excel output_excel
               sleep_time)) = false.
Proof.
  intros Hin Hread Hname Horcid Hrows Hbefore Hn Ho Hv Hget Hq.
  assert (Hrun : fetch_orcid_works_from_excel w input_excel output_excel
                   sleep_time
                 = (ReadExcel path
                      :: evs0
                      ++ (PrintGetting (stripped nc) (stripped oc) :: evs)
                      ++ [PrintFound (List.length works)],
                    Raise e)%list).
  { rewrite (run_to_export _ _ _ _ _ _ Hin Hread Hname Horcid).
    rewrite eff_bind_emit, Hrows, rows_loop_app, Hbefore, eff_bind_ok.
    rewrite (rows_loop_valid_pause_raises _ _ _ _ _ _ _ _ _ _ _
               Hn Ho Hv Hget Hq).
    reflexivity. }
  split; [exact Hrun |].
  rewrite Hrun. cbn [fst existsb is_write orb].
  rewrite !existsb_app. cbn [existsb is_write orb].
  pose proof (rows_loop_no_write w sleep_time (columns df) before []) as H0.
  rewrite Hbefore in H0. cbn [fst] in H0.
  pose proof (get_orcid_works_no_write w (stripped oc)) as H1.
  rewrite Hget in H1. cbn [fst] in H1.
  now rewrite H0, H1.
Qed.

Lemma a_raising_pause_ends_the_run_witness :
  fetch_orcid_works_from_excel
    (World (Some "in.xlsx") (Some "out.xlsx")
       (roster [[VStr "Bob"; VStr ""];
                [VStr "Alice"; VStr alice_id];
                [VStr "Zed"; VStr "0000-0002"]])
       (endpoint_alice (doc_of_summaries [summary_paper_a]))
       (fun _ => Some ValueError) column_kept write_succeeds)
    "a.xlsx" "b.xlsx" (-1 # 2)
  = ([ReadExcel "in.xlsx";
      PrintSkip "Bob";
      PrintGetting "Alice" alice_id;
      HttpGet (works_url alice_id);
      PrintFound 1], Raise ValueError).
Proof.
  apply (proj1
    (a_raising_pause_ends_the_run
       (World (Some "in.xlsx") (Some "out.xlsx")
          (roster [[VStr "Bob"; VStr ""];
                   [VStr "Alice"; VStr alice_id];
                   [VStr "Zed"; VStr "0000-0002"]])
          (endpoint_alice (doc_of_summaries [summary_paper_a]))
          (fun _ => Some ValueError) column_kept write_succeeds)
       "a.xlsx" "b.xlsx" "in.xlsx" (-1 # 2)
       (Frame ["Name"; "ORCID"]
          [[VStr "Bob"; VStr ""];
           [VStr "Alice"; VStr alice_id];
           [VStr "Zed"; VStr "0000-0002"]])
       [[VStr "Bob"; VStr ""]] [[VStr "Zed"; VStr "0000-0002"]]
       [VStr "Alice"; VStr alice_id]
       [PrintSkip "Bob"] [HttpGet (works_url alice_id)]
       []
       [mk_work (VStr "Paper A") (VStr "2021-01-01") (VStr "Conf X")
          (VStr "10.1/xyz")]
       (VStr "Alice") (VStr alice_id) ValueError
       eq_refl eq_refl eq_refl eq_refl eq_refl eq_refl eq_refl eq_refl
       eq_refl eq_refl eq_refl)).
Defined.

(** X11. The loop over a roster is the loop over its first rows followed
    by the loop over the remaining rows from the accumulator reached: the
    rows are processed strictly in order, and when a row raises, the rows
    after it add no event. *)
Theorem rows_are_processed_in_sequence
  (w : world) (sleep_time : Q) (labels : list string)
  (first second : list (list value)) (acc : list work) :
  rows_loop w sleep_time labels (first ++ second)%list acc
  = eff_bind (rows_loop w sleep_time labels first acc)
      (rows_loop w sleep_time labels second)
  /\ (forall evs e,
        rows_loop w sleep_time labels first acc = (evs, Raise e) ->
        rows_loop w sleep_time labels (first ++ second)%list acc
        = (evs, Raise e)).
Proof.
  split; [apply rows_loop_app |].
  intros evs e H. now rewrite rows_loop_app, H.
Qed.

Lemma rows_are_processed_in_sequence_witness :
  rows_loop (world_of None None [] doc_null_title) (1 # 2) ["Name"; "ORCID"]
    ([[VStr "Bob"; VStr ""]; [VStr "Alice"; VStr alice_id]]
       ++ [[VStr "Zed"; VStr "0000-0002"]])%list []
  = ([PrintSkip "Bob"; PrintGetting "Alice" alice_id;
      HttpGet (works_url alice_id)], Raise AttributeError).
Proof.
  apply (proj2
    (rows_are_processed_in_sequence
       (world_of None None [] doc_null_title) (1 # 2) ["Name"; "ORCID"]
       [[VStr "Bob"; VStr ""]; [VStr "Alice"; VStr alice_id]]
       [[VStr "Zed"; VStr "0000-0002"]] [])).
  reflexivity.
Defined.

Lemma get_orcid_works_one_request (w : world) (orcid_id : string) :
  filter is_fetch (fst (get_orcid_works w orcid_id))
  = [HttpGet (works_url orcid_id)]
  /\ filter is_sleep (fst (get_orcid_works w orcid_id)) = [].
Proof.
  rewrite get_orcid_works_by_response.
  destruct (http_get w (works_url orcid_id)); split; reflexivity.
Qed.

Lemma rows_loop_requests (w : world) (sleep_time : Q) (labels : list string)
  (todo : list (list value)) :
  forall acc ws,
    snd (rows_loop w sleep_time labels todo acc) = Ok ws ->
    filter is_fetch (fst (rows_loop w sleep_time labels todo acc))
    = map HttpGet (requested labels todo)
    /\ List.length
         (filter is_sleep (fst (rows_loop w sleep_time labels todo acc)))
       = List.length (requested labels todo).
Proof.
  induction todo as [| row rest IH]; intros acc ws Hok; [now split |].
  destruct (cell labels row "Name") as [nc | e] eqn:Hn;
    [| cbn [rows_loop] in Hok; rewrite Hn in Hok; discriminate].
  destruct (cell labels row "ORCID") as [oc | e] eqn:Ho;
    [| cbn [rows_loop] in Hok; rewrite Hn, eff_bind_lift_ok, Ho in Hok;
       discriminate].
  cbn [requested]. rewrite Ho.
  destruct (invalid_orcid (stripped oc)) eqn:Hv.
  - rewrite (rows_loop_skip _ _ _ _ _ _ _ _ Hn Ho Hv) in Hok |- *.
    cbn [fst snd filter is_fetch is_sleep] in Hok |- *. now apply (IH acc ws).
  - destruct (get_orcid_works w (stripped oc)) as [evs [works | e]] eqn:Hget.
    + destruct (get_orcid_works_one_request w (stripped oc)) as [Hf Hs].
      rewrite Hget in Hf, Hs. cbn [fst] in Hf, Hs.
      destruct (time_sleep w sleep_time) as [e |] eqn:Hq.
      * rewrite (rows_loop_valid_pause_raises _ _ _ _ _ _ _ _ _ _ _
                   Hn Ho Hv Hget Hq) in Hok.
        discriminate.
      * rewrite (rows_loop_valid_ok _ _ _ _ _ _ _ _ _ _ Hn Ho Hv Hget Hq)
          in Hok |- *.
        cbn zeta in Hok |- *. cbn [fst snd] in Hok |- *.
        destruct (IH _ _ Hok) as [IHf IHs].
        cbn [app filter is_fetch is_sleep].
        rewrite !filter_app, Hf, Hs.
        cbn [app filter is_fetch is_sleep map List.length].
        now rewrite IHf, IHs.
    + rewrite (rows_loop_valid_raise _ _ _ _ _ _ _ _ _ _ Hn Ho Hv Hget)
        in Hok.
      discriminate.
Qed.

(** X12. In a loop that ends without an exception the requests sent are,
    in order, exactly one per row whose identifier is not skipped, each to
    the works URL of the stripped identifier (two rows with the same
    identifier are requested twice), and there are as many pauses as
    requests. *)
Theorem one_request_and_one_pause_per_valid_row
  (w : world) (sleep_time : Q) (labels : list string)
  (todo : list (list value)) (acc ws : list work) :
  snd (rows_loop w sleep_time labels todo acc) = Ok ws ->
  filter is_fetch (fst (rows_loop w sleep_time labels todo acc))
  = map HttpGet (requested labels todo)
  /\ List.length
       (filter is_sleep (fst (rows_loop w sleep_time labels todo acc)))
     = List.length (requested labels todo).
Proof. apply rows_loop_requests. Qed.

Lemma one_request_and_one_pause_per_valid_row_witness :
  filter is_fetch
    (fst (rows_loop (world_of None None [] (doc_of_summaries [])) (1 # 2)
            ["Name"; "ORCID"]
            [[VStr "Zed"; VStr "0000-0002"]; [VStr "Bob"; VStr "NaN"];
             [VStr "Zed again"; VStr " 0000-0002 "]] []))
  = [HttpGet "https://pub.orcid.org/v3.0/0000-0002/works";
     HttpGet "https://pub.orcid.org/v3.0/0000-0002/works"]
  /\ List.length
       (filter is_sleep
          (fst (rows_loop (world_of None None [] (doc_of_summaries []))
                  (1 # 2) ["Name"; "ORCID"]
                  [[VStr "Zed"; VStr "0000-0002"]; [VStr "Bob"; VStr "NaN"];
                   [VStr "Zed again"; VStr " 0000-0002 "]] [])))
     = 2.
Proof.
  apply (one_request_and_one_pause_per_valid_row
           (world_of None None [] (doc_of_summaries [])) (1 # 2)
           ["Name"; "ORCID"]
           [[VStr "Zed"; VStr "0000-0002"]; [VStr "Bob"; VStr "NaN"];
            [VStr "Zed again"; VStr " 0000-0002 "]] [] []).
  reflexivity.
Defined.

Lemma get_orcid_works_records (w : world) (orcid_id : string)
  (evs : list event) (works : list work) :
  get_orcid_works w orcid_id = (evs, Ok works) -> Forall is_record works.
Proof.
  rewrite get_orcid_works_by_response.
  destruct (http_get w (works_url orcid_id)) as [| | data].
  - intros [= _ <-]. constructor.
  - discriminate.
  - intros [= _ Hdata]. unfold works_of_data in Hdata.
    destruct (Py.get data "group" (VList [])) as [gv | e];
      cbn [res_bind] in Hdata; [| discriminate].
    destruct (Py.iter gv) as [groups | e]; cbn [res_bind] in Hdata;
      [| discriminate].
    apply works_loop_ok_iff in Hdata as [ws [Hall ->]]. cbn [app].
    induction Hall as [| g wk gs ws Hg _ IH]; constructor.
    + exact (work_of_group_record _ _ Hg).
    + exact IH.
Qed.

Lemma tagged_of_records (name orcid : string) (works : list work) :
  Forall is_record works -> Forall is_tagged (map (tag name orcid) works).
Proof.
  induction 1 as [| wk works Hwk _ IH]; cbn [map]; constructor; [| exact IH].
  destruct Hwk as [t [d [j [x [-> Hd]]]]].
  exists name, orcid, t, d, j, x. now split.
Qed.

Lemma rows_loop_accumulates (w : world) (sleep_time : Q)
  (labels : list string) (todo : list (list value)) :
  forall acc ws,
    snd (rows_loop w sleep_time labels todo acc) = Ok ws ->
    exists added, ws = (acc ++ added)%list /\ Forall is_tagged added.
Proof.
  induction todo as [| row rest IH]; intros acc ws Hok.
  - cbn in Hok. injection Hok as <-. exists []. split;
      [now rewrite app_nil_r | constructor].
  - destruct (cell labels row "Name") as [nc | e] eqn:Hn;
      [| cbn [rows_loop] in Hok; rewrite Hn in Hok; discriminate].
    destruct (cell labels row "ORCID") as [oc | e] eqn:Ho;
      [| cbn [rows_loop] in Hok; rewrite Hn, eff_bind_lift_ok, Ho in Hok;
         discriminate].
    destruct (invalid_orcid (stripped oc)) eqn:Hv.
    + rewrite (rows_loop_skip _ _ _ _ _ _ _ _ Hn Ho Hv) in Hok.
      cbn [snd] in Hok. now apply IH.
    + destruct (get_orcid_works w (stripped oc)) as [evs [works | e]]
        eqn:Hget.
      * destruct (time_sleep w sleep_time) as [e |] eqn:Hq.
        -- rewrite (rows_loop_valid_pause_raises _ _ _ _ _ _ _ _ _ _ _
                      Hn Ho Hv Hget Hq) in Hok.
           discriminate.
        -- rewrite (rows_loop_valid_ok _ _ _ _ _ _ _ _ _ _ Hn Ho Hv Hget Hq)
             in Hok.
           cbn zeta in Hok. cbn [snd] in Hok.
           destruct (IH _ _ Hok) as [added [-> Hadded]].
           exists (map (tag (stripped nc) (stripped oc)) works ++ added)%list.
           split; [now rewrite app_assoc |].
           apply Forall_app. split; [| exact Hadded].
           apply tagged_of_records.
           exact (get_orcid_works_records _ _ _ _ Hget).
      * rewrite (rows_loop_valid_raise _ _ _ _ _ _ _ _ _ _ Hn Ho Hv Hget)
          in Hok.
        discriminate.
Qed.

(** X13. The accumulator only grows: when the loop ends without an
    exception, its result is the accumulator it started from, unchanged
    and in the same order, followed by the records the rows added; each
    added record is an extractor record (four fields, the date null or
    text) tagged with a name and an identifier. *)
Theorem accumulator_only_grows
  (w : world) (sleep_time : Q) (labels : list string)
  (todo : list (list value)) (acc ws : list work) :
  snd (rows_loop w sleep_time labels todo acc) = Ok ws ->
  exists added, ws = (acc ++ added)%list /\ Forall is_tagged added.
Proof. apply rows_loop_accumulates. Qed.

Lemma accumulator_only_grows_witness :
  exists added,
    [default_work; tag "Alice" alice_id default_work]
    = ([default_work] ++ added)%list
    /\ Forall is_tagged added.
Proof.
  apply (accumulator_only_grows
           (world_of None None [] (VDict [("group", VList [VDict []])]))
           (1 # 2) ["Name"; "ORCID"]
           [[VStr "Bob"; VStr "none"]; [VStr "Alice"; VStr alice_id]]
           [default_work]).
  reflexivity.
Defined.

Lemma labels_of_tagged (r : work) (labels : list string) :
  is_tagged r ->
  labels = [] \/ labels
               = ["title"; "publication_date"; "journal"; "doi"; "Name";
                  "ORCID"] ->
  fold_left
    (fun labels kv =>
       if Py.among (fst kv) labels then labels
       else (labels ++ [fst kv])%list)
    r labels
  = ["title"; "publication_date"; "journal"; "doi"; "Name"; "ORCID"].
Proof.
  intros [n [o [t [d [j [x [-> _]]]]]]] [-> | ->]; reflexivity.
Qed.

Lemma frame_labels_of_tagged (wk : work) (wks : list work) :
  Forall is_tagged (wk :: wks) ->
  frame_labels (wk :: wks)
  = ["title"; "publication_date"; "journal"; "doi"; "Name"; "ORCID"].
Proof.
  intros Hall. inversion Hall as [| r rs Hwk Hwks]; subst.
  unfold frame_labels. cbn [fold_left].
  rewrite (labels_of_tagged wk [] Hwk) by now left.
  clear Hall Hwk. induction Hwks as [| r rs Hr _ IH]; [reflexivity |].
  cbn [fold_left]. rewrite (labels_of_tagged r _ Hr) by now right.
  exact IH.
Qed.

Lemma rows_of_columns {A : Type} (f : string -> A -> value)
  (labels : list string) (d : value) (ws : list A) :
  map (fun i =>
         map (fun col => nth i col d)
             (map (fun label => map (f label) ws) labels))
      (seq 0 (List.length ws))
  = map (fun r => map (fun label => f label r) labels) ws.
Proof.
  induction ws as [| a ws IH]; [reflexivity |].
  cbn [List.length seq map]. f_equal.
  - rewrite map_map. now apply map_ext.
  - rewrite <- seq_shift, map_map, <- IH. apply map_ext. intros i.
    rewrite !map_map. now apply map_ext.
Qed.

Lemma out_table_kept (w : world) (ws : list work) :
  frame_labels ws
  = ["title"; "publication_date"; "journal"; "doi"; "Name"; "ORCID"] ->
  (forall label, In label desired_order ->
                 pandas_column w (raw_column ws label)
                 = column_kept (raw_column ws label)) ->
  out_table w ws
  = map (fun r => map (fun label => kept (Py.lookup label r)) desired_order)
        ws.
Proof.
  intros Hlabels Hkeep. unfold out_table. cbn zeta.
  rewrite <- (rows_of_columns (fun label r => kept (Py.lookup label r))
                desired_order NaN ws).
  apply map_ext. intros i. f_equal.
  apply map_ext_in. intros label Hin.
  unfold out_column. rewrite Hlabels.
  assert (Hamong : Py.among label
                     ["title"; "publication_date"; "journal"; "doi";
                      "Name"; "ORCID"] = true).
  { cbn [desired_order In] in Hin.
    destruct Hin as [<- | [<- | [<- | [<- | [<- | [<- | []]]]]]];
      reflexivity. }
  rewrite Hamong, (Hkeep _ Hin). unfold column_kept, raw_column.
  now rewrite map_map.
Qed.

Lemma rows_of_tagged (ws : list work) :
  Forall is_tagged ws ->
  Forall2 row_of_record ws
    (map (fun r => map (fun label => kept (Py.lookup label r)) desired_order)
         ws).
Proof.
  induction 1 as [| wk ws Hwk _ IH]; cbn [map]; constructor; [| exact IH].
  destruct Hwk as [n [o [t [d [j [x [-> _]]]]]]].
  exists n, o, t, d, j, x. split; reflexivity.
Qed.

(** X14. A run that ends with a non-empty accumulator and a bound
    [output_file] calls [to_excel] once, after all rows, with the fixed
    header and the table of the frame. When the call returns, the run
    prints the count and returns; when it raises (line 147 is in no
    [try]), the run raises the same exception and prints no count. The
    frame built from the accumulator has exactly the columns [title],
    [publication_date], [journal], [doi], [Name] and [ORCID], so line 137
    adds no column; and where pandas holds the values of these columns as
    they are given, each row of the table is the name, the identifier, the
    title, the date, the journal and the doi of its record, in the order
    of the records. *)
Theorem the_written_table_is_the_accumulator
  (w : world) (input_excel output_excel path out : string) (sleep_time : Q)
  (df : frame) (evs : list event) (wk : work) (wks : list work) :
  input_file w = Some path ->
  read_excel w path = Some df ->
  Py.among "Name" (columns df) = true ->
  Py.among "ORCID" (columns df) = true ->
  rows_loop w sleep_time (columns df) (rows df) [] = (evs, Ok (wk :: wks)) ->
  output_file w = Some out ->
  (to_excel w out out_header (out_table w (wk :: wks)) = None ->
   fetch_orcid_works_from_excel w input_excel output_excel sleep_time
   = (ReadExcel path
        :: evs
        ++ [ToExcel out
              ["Name"; "ORCID"; "Title"; "Publication Date";
               "Journal/Source"; "DOI"]
              (out_table w (wk :: wks));
            PrintExported (S (List.length wks)) out],
      Ok tt)%list)
  /\ (forall e,
        to_excel w out out_header (out_table w (wk :: wks)) = Some e ->
        fetch_orcid_works_from_excel w input_excel output_excel sleep_time
        = (ReadExcel path
             :: evs
             ++ [ToExcel out
                   ["Name"; "ORCID"; "Title"; "Publication Date";
                    "Journal/Source"; "DOI"]
                   (out_table w (wk :: wks))],
           Raise e)%list)
  /\ frame_labels (wk :: wks)
     = ["title"; "publication_date"; "journal"; "doi"; "Name"; "ORCID"]
  /\ ((forall label, In label desired_order ->
                     pandas_column w (raw_column (wk :: wks) label)
                     = column_kept (raw_column (wk :: wks) label)) ->
      Forall2 row_of_record (wk :: wks) (out_table w (wk :: wks)))
  /\ existsb is_write evs = false.
Proof.
  intros Hin Hread Hname Horcid Hloop Hout.
  assert (Htag : Forall is_tagged (wk :: wks)).
  { pose proof (rows_loop_accumulates w sleep_time (columns df) (rows df)
                  [] (wk :: wks)) as Hacc.
    rewrite Hloop in Hacc. destruct (Hacc eq_refl) as [added [-> Htag]].
    exact Htag. }
  assert (Hrun : fetch_orcid_works_from_excel w input_excel output_excel
                   sleep_time
                 = eff_bind (ReadExcel path :: evs, Ok (wk :: wks))
                     (export w)).
  { rewrite (run_to_export _ _ _ _ _ _ Hin Hread Hname Horcid).
    rewrite eff_bind_emit, Hloop, eff_bind_ok.
    unfold eff_bind. now destruct (export w (wk :: wks)). }
  split; [| split; [| split; [| split]]].
  - intros Hwrite. rewrite Hrun, eff_bind_ok. unfold export.
    rewrite Hout. cbn zeta. rewrite eff_bind_emit, Hwrite. reflexivity.
  - intros e Hwrite. rewrite Hrun, eff_bind_ok. unfold export.
    rewrite Hout. cbn zeta. rewrite eff_bind_emit, Hwrite. reflexivity.
  - exact (frame_labels_of_tagged _ _ Htag).
  - intros Hkeep.
    rewrite (out_table_kept _ _ (frame_labels_of_tagged _ _ Htag) Hkeep).
    exact (rows_of_tagged _ Htag).
  - pose proof (rows_loop_no_write w sleep_time (columns df) (rows df) [])
      as Hq.
    now rewrite Hloop in Hq.
Qed.

Lemma the_written_table_is_the_accumulator_witness :
  fetch_orcid_works_from_excel
    (world_of (Some "in.xlsx") (Some "out.xlsx")
       [[VStr "Alice"; VStr alice_id]] (doc_of_summaries [summary_paper_a]))
    "a.xlsx" "b.xlsx" (1 # 2)
  = ([ReadExcel "in.xlsx";
      PrintGetting "Alice" alice_id;
      HttpGet (works_url alice_id);
      PrintFound 1;
      Sleep (1 # 2);
      ToExcel "out.xlsx"
        ["Name"; "ORCID"; "Title"; "Publication Date"; "Journal/Source";
         "DOI"]
        [[VStr "Alice"; VStr alice_id; VStr "Paper A"; VStr "2021-01-01";
          VStr "Conf X"; VStr "10.1/xyz"]];
      PrintExported 1 "out.xlsx"], Ok tt)
  /\ fetch_orcid_works_from_excel
       (World (Some "in.xlsx") (Some "out.csv")
          (roster [[VStr "Alice"; VStr alice_id]])
          (endpoint_alice (doc_of_summaries [summary_paper_a]))
          pause_returns column_kept write_fails)
       "a.xlsx" "b.xlsx" (1 # 2)
     = ([ReadExcel "in.xlsx";
         PrintGetting "Alice" alice_id;
         HttpGet (works_url alice_id);
         PrintFound 1;
         Sleep (1 # 2);
         ToExcel "out.csv"
           ["Name"; "ORCID"; "Title"; "Publication Date"; "Journal/Source";
            "DOI"]
           [[VStr "Alice"; VStr alice_id; VStr "Paper A"; VStr "2021-01-01";
             VStr "Conf X"; VStr "10.1/xyz"]]], Raise ValueError).
Proof.
  split.
  - apply (proj1
      (the_written_table_is_the_accumulator
         (world_of (Some "in.xlsx") (Some "out.xlsx")
            [[VStr "Alice"; VStr alice_id]]
            (doc_of_summaries [summary_paper_a]))
         "a.xlsx" "b.xlsx" "in.xlsx" "out.xlsx" (1 # 2)
         (Frame ["Name"; "ORCID"] [[VStr "Alice"; VStr alice_id]])
         [PrintGetting "Alice" alice_id;
          HttpGet (works_url alice_id);
          PrintFound 1;
          Sleep (1 # 2)]
         (tag "Alice" alice_id
            (mk_work (VStr "Paper A") (VStr "2021-01-01") (VStr "Conf X")
               (VStr "10.1/xyz")))
         []
         eq_refl eq_refl eq_refl eq_refl eq_refl eq_refl)).
    reflexivity.
  - apply (proj1 (proj2
      (the_written_table_is_the_accumulator
         (World (Some "in.xlsx") (Some "out.csv")
            (roster [[VStr "Alice"; VStr alice_id]])
            (endpoint_alice (doc_of_summaries [summary_paper_a]))
            pause_returns column_kept write_fails)
         "a.xlsx" "b.xlsx" "in.xlsx" "out.csv" (1 # 2)
         (Frame ["Name"; "ORCID"] [[VStr "Alice"; VStr alice_id]])
         [PrintGetting "Alice" alice_id;
          HttpGet (works_url alice_id);
          PrintFound 1;
          Sleep (1 # 2)]
         (tag "Alice" alice_id
            (mk_work (VStr "Paper A") (VStr "2021-01-01") (VStr "Conf X")
               (VStr "10.1/xyz")))
         []
         eq_refl eq_refl eq_refl eq_refl eq_refl eq_refl))
      ValueError).
    reflexivity.
Defined.

(** X15. A roster without a [Name] column or without an [ORCID] column
    ends the run after the read with the notice about the columns: no
    row is looked at, no request is sent, nothing is written and nothing
    is raised. Columns besides the two are accepted. *)
Theorem missing_column_ends_the_run
  (w : world) (input_excel output_excel path : string) (sleep_time : Q)
  (df : frame) :
  input_file w = Some path ->
  read_excel w path = Some df ->
  (Py.among "Name" (columns df) = false
   \/ Py.among "ORCID" (columns df) = false ->
   fetch_orcid_works_from_excel w input_excel output_excel sleep_time
   = ([ReadExcel path; PrintMissingColumns], Ok tt))
  /\ (Py.among "Name" (columns df) = true ->
      Py.among "ORCID" (columns df) = true ->
      fetch_orcid_works_from_excel w input_excel output_excel sleep_time
      = eff_bind (emit (ReadExcel path))
          (fun _ =>
             eff_bind (rows_loop w sleep_time (columns df) (rows df) [])
               (export w))).
Proof.
  intros Hin Hread. split.
  - intros Hmiss. unfold fetch_orcid_works_from_excel. rewrite Hin, Hread.
    destruct Hmiss as [-> | ->]; [reflexivity |].
    now rewrite orb_true_r.
  - now apply run_to_export.
Qed.

Lemma missing_column_ends_the_run_witness :
  fetch_orcid_works_from_excel
    (World (Some "in.xlsx") (Some "out.xlsx")
       (fun _ => Some (Frame ["Name"; "orcid"]
                         [[VStr "Alice"; VStr alice_id]]))
       (endpoint_alice (doc_of_summaries [summary_paper_a]))
       pause_returns column_kept write_succeeds)
    "a.xlsx" "b.xlsx" (1 # 2)
  = ([ReadExcel "in.xlsx"; PrintMissingColumns], Ok tt)
  /\ fetch_orcid_works_from_excel
       (World (Some "in.xlsx") (Some "out.xlsx")
          (fun _ => Some (Frame ["Email"; "ORCID"; "Name"]
                            [[VNone; VStr ""; VStr "Bob"]]))
          (endpoint_alice VNone)
          pause_returns column_kept write_succeeds)
       "a.xlsx" "b.xlsx" (1 # 2)
     = ([ReadExcel "in.xlsx"; PrintSkip "Bob"; PrintNoWorks], Ok tt).
Proof.
  split.
  - apply (proj1
      (missing_column_ends_the_run
         (World (Some "in.xlsx") (Some "out.xlsx")
            (fun _ => Some (Frame ["Name"; "orcid"]
                              [[VStr "Alice"; VStr alice_id]]))
            (endpoint_alice (doc_of_summaries [summary_paper_a]))
            pause_returns column_kept write_succeeds)
         "a.xlsx" "b.xlsx" "in.xlsx" (1 # 2)
         (Frame ["Name"; "orcid"] [[VStr "Alice"; VStr alice_id]])
         eq_refl eq_refl)).
    right. reflexivity.
  - rewrite (proj2
      (missing_column_ends_the_run
         (World (Some "in.xlsx") (Some "out.xlsx")
            (fun _ => Some (Frame ["Email"; "ORCID"; "Name"]
                              [[VNone; VStr ""; VStr "Bob"]]))
            (endpoint_alice VNone)
            pause_returns column_kept write_succeeds)
         "a.xlsx" "b.xlsx" "in.xlsx" (1 # 2)
         (Frame ["Email"; "ORCID"; "Name"] [[VNone; VStr ""; VStr "Bob"]])
         eq_refl eq_refl) eq_refl eq_refl).
    reflexivity.
Defined.

(* ================================================================= *)
(** ** Further results: [print_works] *)

Lemma console_bind_say {B : Type} (text : string) (k : unit -> console B) :
  console_bind (say text) k = (text :: fst (k tt), snd (k tt)).
Proof. unfold console_bind, say. now destruct (k tt). Qed.

Lemma console_bind_look_ok {A B : Type} (a : A) (k : A -> console B) :
  console_bind (look (Ok a)) k = k a.
Proof. unfold console_bind, look. now destruct (k a). Qed.

Lemma print_works_record (i : nat) (title date journal doi : value)
  (rest : list work) :
  print_works_from i (mk_work title date journal doi :: rest)
  = ((line_feed ++ "--- Work " ++ Py.str_of_int (Z.of_nat i) ++ " ---")
       :: ("Title: " ++ Py.str title)
       :: ("Data: " ++ Py.str date)
       :: ("Journal/Source: " ++ Py.str journal)
       :: ("DOI: " ++ Py.str doi)
       :: fst (print_works_from (S i) rest),
     snd (print_works_from (S i) rest)).
Proof.
  cbn [print_works_from]. rewrite console_bind_say.
  change (Py.item (VDict (mk_work title date journal doi)) "title")
    with (@Ok value title).
  rewrite console_bind_look_ok, console_bind_say.
  change (Py.item (VDict (mk_work title date journal doi)) "publication_date")
    with (@Ok value date).
  rewrite console_bind_look_ok, console_bind_say.
  change (Py.item (VDict (mk_work title date journal doi)) "journal")
    with (@Ok value journal).
  rewrite console_bind_look_ok, console_bind_say.
  change (Py.item (VDict (mk_work title date journal doi)) "doi")
    with (@Ok value doi).
  rewrite console_bind_look_ok, console_bind_say.
  reflexivity.
Qed.

Lemma print_works_records (works : list work) :
  Forall is_record works ->
  forall i,
    snd (print_works_from i works) = Ok tt
    /\ List.length (fst (print_works_from i works)) = 5 * List.length works.
Proof.
  induction 1 as [| wk works Hwk _ IH]; intros i; [now split |].
  destruct Hwk as [t [d [j [x [-> _]]]]].
  rewrite print_works_record. cbn [fst snd List.length].
  destruct (IH (S i)) as [Hs Hl]. split; [exact Hs |]. rewrite Hl. lia.
Qed.

(** X16. [print_works] accepts every list [get_orcid_works] can return:
    for the records extracted from any document it raises nothing and
    makes five [print] calls per record. For a record of the extractor
    the five texts are the numbered heading after a line feed and the
    title, the date ([None] for a null one), the journal and the doi, each
    converted with [str]; the numbering goes on by one for the next
    record. *)
Theorem print_works_accepts_extracted_records
  (data : value) (works : list work) (i : nat)
  (title date journal doi : value) (rest : list work) :
  (works_of_data data = Ok works ->
   snd (print_works works) = Ok tt
   /\ List.length (fst (print_works works)) = 5 * List.length works)
  /\ print_works_from i (mk_work title date journal doi :: rest)
     = ((line_feed ++ "--- Work " ++ Py.str_of_int (Z.of_nat i) ++ " ---")
          :: ("Title: " ++ Py.str title)
          :: ("Data: " ++ Py.str date)
          :: ("Journal/Source: " ++ Py.str journal)
          :: ("DOI: " ++ Py.str doi)
          :: fst (print_works_from (S i) rest),
        snd (print_works_from (S i) rest)).
Proof.
  split; [| apply print_works_record].
  intros Hdata. apply print_works_records.
  unfold works_of_data in Hdata.
  destruct (Py.get data "group" (VList [])) as [gv | e];
    cbn [res_bind] in Hdata; [| discriminate].
  destruct (Py.iter gv) as [groups | e]; cbn [res_bind] in Hdata;
    [| discriminate].
  apply works_loop_ok_iff in Hdata as [ws [Hall ->]]. cbn [app].
  induction Hall as [| g wk gs ws Hg _ IH]; constructor.
  - exact (work_of_group_record _ _ Hg).
  - exact IH.
Qed.

Lemma print_works_accepts_extracted_records_witness :
  snd (print_works
         [mk_work (VStr "Paper A") (VStr "2021-01-01") (VStr "Conf X")
            (VStr "10.1/xyz");
          default_work]) = Ok tt
  /\ List.length
       (fst (print_works
               [mk_work (VStr "Paper A") (VStr "2021-01-01") (VStr "Conf X")
                  (VStr "10.1/xyz");
                default_work])) = 10.
Proof.
  apply (proj1
    (print_works_accepts_extracted_records
       (VDict [("group",
                VList [VDict [("work-summary", VList [summary_paper_a])];
                       VDict []])])
       [mk_work (VStr "Paper A") (VStr "2021-01-01") (VStr "Conf X")
          (VStr "10.1/xyz");
        default_work]
       0 VNone VNone VNone VNone [])).
  reflexivity.
Defined.

(** X17. [print_works] on a record that lacks one of the four keys raises
    [KeyError] at that key, after the heading and the lines of the keys
    before it have been printed; the records after it are not printed. *)
Theorem print_works_raises_on_a_missing_key
  (i : nat) (wk : work) (rest : list work) (title date journal : value) :
  (Py.lookup "title" wk = None ->
   print_works_from i (wk :: rest)
   = ([line_feed ++ "--- Work " ++ Py.str_of_int (Z.of_nat i) ++ " ---"],
      Raise KeyError))
  /\ (Py.lookup "title" wk = Some title ->
      Py.lookup "publication_date" wk = None ->
      print_works_from i (wk :: rest)
      = ([line_feed ++ "--- Work " ++ Py.str_of_int (Z.of_nat i) ++ " ---";
          "Title: " ++ Py.str title],
         Raise KeyError))
  /\ (Py.lookup "title" wk = Some title ->
      Py.lookup "publication_date" wk = Some date ->
      Py.lookup "journal" wk = None ->
      print_works_from i (wk :: rest)
      = ([line_feed ++ "--- Work " ++ Py.str_of_int (Z.of_nat i) ++ " ---";
          "Title: " ++ Py.str title;
          "Data: " ++ Py.str date],
         Raise KeyError))
  /\ (Py.lookup "title" wk = Some title ->
      Py.lookup "publication_date" wk = Some date ->
      Py.lookup "journal" wk = Some journal ->
      Py.lookup "doi" wk = None ->
      print_works_from i (wk :: rest)
      = ([line_feed ++ "--- Work " ++ Py.str_of_int (Z.of_nat i) ++ " ---";
          "Title: " ++ Py.str title;
          "Data: " ++ Py.str date;
          "Journal/Source: " ++ Py.str journal],
         Raise KeyError)).
Proof.
  cbn [print_works_from Py.item]. rewrite console_bind_say.
  split; [| split; [| split]].
  - now intros ->.
  - intros -> ->. now rewrite console_bind_look_ok, console_bind_say.
  - intros -> -> ->.
    rewrite console_bind_look_ok, console_bind_say.
    now rewrite console_bind_look_ok, console_bind_say.
  - intros -> -> -> ->.
    rewrite console_bind_look_ok, console_bind_say.
    rewrite console_bind_look_ok, console_bind_say.
    now rewrite console_bind_look_ok, console_bind_say.
Qed.

Lemma print_works_raises_on_a_missing_key_witness :
  print_works [[("doi", VStr "10.1/xyz")]; default_work]
  = ([line_feed ++ "--- Work 1 ---"], Raise KeyError)
  /\ print_works [[("title", VInt 7)]]
     = ([line_feed ++ "--- Work 1 ---"; "Title: 7"], Raise KeyError)
  /\ print_works [[("title", VStr "T"); ("publication_date", VNone)]]
     = ([line_feed ++ "--- Work 1 ---"; "Title: T"; "Data: None"],
        Raise KeyError)
  /\ print_works
       [[("title", VStr "T"); ("publication_date", VNone);
         ("journal", VStr "J")]]
     = ([line_feed ++ "--- Work 1 ---"; "Title: T"; "Data: None";
         "Journal/Source: J"],
        Raise KeyError).
Proof.
  split; [| split; [| split]].
  - apply (proj1
      (print_works_raises_on_a_missing_key 1 [("doi", VStr "10.1/xyz")]
         [default_work] VNone VNone VNone)).
    reflexivity.
  - apply (proj1 (proj2
      (print_works_raises_on_a_missing_key 1 [("title", VInt 7)] []
         (VInt 7) VNone VNone))); reflexivity.
  - apply (proj1 (proj2 (proj2
      (print_works_raises_on_a_missing_key 1
         [("title", VStr "T"); ("publication_date", VNone)] []
         (VStr "T") VNone VNone)))); reflexivity.
  - apply (proj2 (proj2 (proj2
      (print_works_raises_on_a_missing_key 1
         [("title", VStr "T"); ("publication_date", VNone);
          ("journal", VStr "J")] []
         (VStr "T") VNone (VStr "J"))))); reflexivity.
Defined.

(* ================================================================= *)
(** ** Further results: validation, sources, writes *)





(** X19. Of the entries of [source] only the first is read: when
    [journal-title] is missing or null, two summaries whose [source] lists
    start with the same entry give the same journal, and an entry with a
    [source-name] further down the list is never used. *)
Theorem only_the_first_source_is_read
  (ws ws' : list (string * value)) (first : value)
  (others others' : list value) :
  absent_or_empty "journal-title" ws = true ->
  absent_or_empty "journal-title" ws' = true ->
  Py.lookup "source" ws = Some (VList (first :: others)) ->
  Py.lookup "source" ws' = Some (VList (first :: others')) ->
  journal_title_of (VDict ws) = journal_title_of (VDict ws').
Proof.
  intros Ha Ha' Hs Hs'.
  rewrite (journal_from_source _ Ha), (journal_from_source _ Ha').
  now rewrite !get_dict, Hs, Hs'.
Qed.

Lemma only_the_first_source_is_read_witness :
  journal_title_of
    (VDict [("source", VList [VDict []; VDict crossref_source])])
  = journal_title_of
      (VDict [("journal-title", VNone); ("source", VList [VDict []])]).
Proof.
  apply (only_the_first_source_is_read
           [("source", VList [VDict []; VDict crossref_source])]
           [("journal-title", VNone); ("source", VList [VDict []])]
           (VDict []) [VDict crossref_source] []);
    reflexivity.
Defined.

Lemma no_write_filter (evs : list event) :
  existsb is_write evs = false -> filter is_write evs = [].
Proof.
  induction evs as [| e evs IH]; [reflexivity |]. cbn [existsb filter].
  destruct (is_write e); [discriminate |]. exact IH.
Qed.

(** X20. A run calls [to_excel] at most once and only with the path
    [output_file] is bound to: the write events of any run are either
    none, or the single call with the fixed header and the table of the
    accumulator the loop over the rows of the input ended with, which is
    then not empty. No argument of the function, no roster and no
    response makes it write elsewhere or twice. *)
Theorem a_run_writes_at_most_once
  (w : world) (input_excel output_excel : string) (sleep_time : Q) :
  filter is_write
    (fst (fetch_orcid_works_from_excel w input_excel output_excel sleep_time))
  = []
  \/ exists path df evs wk wks out,
       input_file w = Some path
       /\ read_excel w path = Some df
       /\ rows_loop w sleep_time (columns df) (rows df) []
          = (evs, Ok (wk :: wks))
       /\ output_file w = Some out
       /\ filter is_write
            (fst (fetch_orcid_works_from_excel w input_excel output_excel
                    sleep_time))
          = [ToExcel out
               ["Name"; "ORCID"; "Title"; "Publication Date";
                "Journal/Source"; "DOI"]
               (out_table w (wk :: wks))].
Proof.
  unfold fetch_orcid_works_from_excel.
  destruct (input_file w) as [path |] eqn:Hin; [| now left].
  rewrite eff_bind_emit.
  destruct (read_excel w path) as [df |] eqn:Hread; [| now left].
  destruct (negb (Py.among "Name" (columns df))
            || negb (Py.among "ORCID" (columns df))); [now left |].
  pose proof (rows_loop_no_write w sleep_time (columns df) (rows df) [])
    as Hq.
  destruct (rows_loop w sleep_time (columns df) (rows df) [])
    as [evs [all_works | e]] eqn:Hloop; cbn [fst] in Hq;
    apply no_write_filter in Hq.
  - rewrite eff_bind_ok. cbn [fst filter is_write]. rewrite filter_app, Hq.
    destruct all_works as [| wk wks]; [now left |].
    cbn [export]. destruct (output_file w) as [out |] eqn:Hout; [| now left].
    right. exists path, df, evs, wk, wks, out.
    repeat (split; [first [reflexivity | assumption] |]).
    cbn zeta. rewrite eff_bind_emit.
    destruct (to_excel w out out_header (out_table w (wk :: wks)));
      reflexivity.
  - left. cbn [eff_bind fst filter is_write]. exact Hq.
Qed.

(* ================================================================= *)
(** ** Cells are converted to text and stripped *)









